(** * Tracer analysis service: segment extraction and analysis dispatch

    A shallow embedding of
    [policyengine_api/services/tracer_analysis_service.py]
    (class [TracerAnalysisService]) together with the properties of its
    segment extractor [_parse_tracer_output], of prompt rendering and of
    the dispatcher [execute_analysis]. *)

From Stdlib Require Import Ascii String List Bool Arith Lia.
From stdpp Require Import gmap strings.
Import ListNotations.

Local Open Scope string_scope.
Local Open Scope nat_scope.
Local Open Scope list_scope.

(** ** Python values and exceptions *)

(** The values [json.loads] can produce, which is what reaches the
    extractor as [tracer_output].  A [str] is a sequence of code points;
    the model covers the code points below 256, one [ascii] each. *)
#[warnings="-register-all"]
Inductive pyval : Type :=
| PNone
| PBool (b : bool)
| PInt (n : Z)
| PFloat (literal : string)
| PStr (s : string)
| PList (items : list pyval)
| PDict (items : list (string * pyval)).

(** Exceptions, with the text [str(e)] gives where the code prints it. *)
Inductive exn : Type :=
| TypeError (msg : string)
| AttributeError (msg : string)
| KeyError (key : string)
| NotFound (description : string)
| ValueError (msg : string)
| ExternalError (msg : string).

(** A call either returns a value or raises. *)
Inductive outcome (A : Type) : Type :=
| Ok (a : A)
| Raise (e : exn).
Arguments Ok {A} a.
Arguments Raise {A} e.

(** [type(x).__name__], used in the messages of [TypeError] and
    [AttributeError]. *)
Definition type_name (v : pyval) : string :=
  match v with
  | PNone => "NoneType"
  | PBool _ => "bool"
  | PInt _ => "int"
  | PFloat _ => "float"
  | PStr _ => "str"
  | PList _ => "list"
  | PDict _ => "dict"
  end.

(** ** Characters *)

Definition chars (s : string) : list ascii := list_ascii_of_string s.

Definition code (c : ascii) : nat := nat_of_ascii c.

Definition in_range (lo hi n : nat) : bool := (lo <=? n) && (n <=? hi).

(** [Py_UNICODE_ISSPACE]: the whitespace of [str.strip()] and of [\s] in a
    [str] pattern.  Below 256: TAB..CR, FS..US, space, NEL and NBSP. *)
Definition is_space (c : ascii) : bool :=
  let n := code c in
  in_range 9 13 n || in_range 28 32 n || (n =? 133) || (n =? 160).

(** [Py_UNICODE_ISALNUM]: letters, and decimal, digit and numeric
    characters. *)
Definition is_alnum (c : ascii) : bool :=
  let n := code c in
  in_range 48 57 n || in_range 65 90 n || in_range 97 122 n
  || (n =? 170) || (n =? 181) || (n =? 186)
  || in_range 178 179 n || (n =? 185) || in_range 188 190 n
  || in_range 192 214 n || in_range 216 246 n || in_range 248 255 n.

(** [\w] in a [str] pattern: alphanumeric or underscore. *)
Definition is_word (c : ascii) : bool := is_alnum c || (code c =? 95).

(** ** [str.strip], [str.lstrip] *)

Fixpoint lstrip (l : list ascii) : list ascii :=
  match l with
  | c :: t => if is_space c then lstrip t else l
  | [] => []
  end.

Definition rstrip (l : list ascii) : list ascii := rev (lstrip (rev l)).

Definition strip (l : list ascii) : list ascii := rstrip (lstrip l).

(** ** Regular expressions: the fragment of [re] the pattern uses

    A backtracking matcher in continuation-passing style.  The
    continuation receives the position reached and the rest of the
    subject; [re.match] only asks whether some way of matching a prefix of
    the subject exists, so groups, which only record positions, are not
    represented. *)
Inductive regex : Type :=
| Eps
| Bol
| Lit (c : ascii)
| Cls (p : ascii -> bool)
| Seq (r1 r2 : regex)
| Opt (r : regex)
| StarCls (p : ascii -> bool)
| NotAhead (r : regex).

Definition cont : Type := nat -> list ascii -> bool.

(** Greedy [p*]: take one more character first, give it back on failure. *)
Fixpoint star_cls (p : ascii -> bool) (k : cont) (i : nat) (s : list ascii)
  : bool :=
  match s with
  | c :: t => if p c then star_cls p k (S i) t || k i s else k i s
  | [] => k i s
  end.

Fixpoint re_run (r : regex) (i : nat) (s : list ascii) (k : cont) : bool :=
  match r with
  | Eps => k i s
  | Bol => if i =? 0 then k i s else false
  | Lit c =>
      match s with
      | c' :: t => if Ascii.eqb c c' then k (S i) t else false
      | [] => false
      end
  | Cls p =>
      match s with
      | c' :: t => if p c' then k (S i) t else false
      | [] => false
      end
  | Seq r1 r2 => re_run r1 i s (fun i' s' => re_run r2 i' s' k)
  | Opt r1 => re_run r1 i s k || k i s
  | StarCls p => star_cls p k i s
  | NotAhead r1 => if re_run r1 i s (fun _ _ => true) then false else k i s
  end.

(** [bool(re.match(pattern, line))] *)
Definition re_match (r : regex) (line : list ascii) : bool :=
  re_run r 0 line (fun _ _ => true).

(** [re.escape(s)]: a pattern matching [s] literally. *)
Fixpoint re_escape (s : list ascii) : regex :=
  match s with
  | [] => Eps
  | c :: t => Seq (Lit c) (re_escape t)
  end.

Definition not_gt (c : ascii) : bool := negb (Ascii.eqb c ">").

(** The pattern, piece by piece: [^], a group of [\s] repeated, a group
    holding the escaped target, the negative lookahead for [\w], [\s]
    repeated, an optional non-capturing group made of [<], any characters
    but [>], and [>], and [\s] repeated.  There is no end anchor. *)
Definition pattern (target_variable : string) : regex :=
  Seq Bol
  (Seq (StarCls is_space)
  (Seq (re_escape (chars target_variable))
  (Seq (NotAhead (Cls is_word))
  (Seq (StarCls is_space)
  (Seq (Opt (Seq (Lit "<") (Seq (StarCls not_gt) (Lit ">"))))
       (StarCls is_space)))))).

(** Whether [line] is a match for the target variable. *)
Definition line_matches (target_variable line : string) : bool :=
  re_match (pattern target_variable) (chars line).

(** ** [_parse_tracer_output] *)

(** [len(line) - len(line.strip())] *)
Definition indent (line : string) : nat :=
  length (chars line) - length (strip (chars line)).

(** The local variables of the loop. *)
Record scan : Type := mkScan {
  result : list string;
  target_indent : option nat;
  capturing : bool
}.

Inductive step : Type :=
| Next (st : scan)
| Break (st : scan)
| Fail (e : exn).

(** Evaluating [len(line) - len(line.strip())] on an element of the list:
    [len] fails on values without a length, [.strip] on the others that
    are not [str]. *)
Definition eval_indent (line : pyval) : outcome (string * nat) :=
  match line with
  | PStr s => Ok (s, indent s)
  | PList _ | PDict _ =>
      Raise (AttributeError
               ("'" +:+ type_name line +:+ "' object has no attribute 'strip'"))
  | _ =>
      Raise (TypeError
               ("object of type '" +:+ type_name line +:+ "' has no len()"))
  end.

(** One iteration of [for line in tracer_output]. *)
Definition loop_body (target_variable : string) (st : scan) (line : pyval)
  : step :=
  match eval_indent line with
  | Raise e => Fail e
  | Ok (s, ind) =>
      if line_matches target_variable s && negb (capturing st) then
        Next (mkScan (result st ++ [s]) (Some ind) true)
      else if capturing st then
        match target_indent st with
        | None =>
            Fail (TypeError
              "'<=' not supported between instances of 'int' and 'NoneType'")
        | Some ti =>
            if ind <=? ti then Break st
            else Next (mkScan (result st ++ [s]) (target_indent st)
                              (capturing st))
        end
      else Next st
  end.

Fixpoint for_loop (target_variable : string) (st : scan)
  (tracer_output : list pyval) : outcome (list string) :=
  match tracer_output with
  | [] => Ok (result st)
  | line :: rest =>
      match loop_body target_variable st line with
      | Next st' => for_loop target_variable st' rest
      | Break st' => Ok (result st')
      | Fail e => Raise e
      end
  end.

(** The locals before the loop: [result = []], [target_indent = None],
    [capturing = False]. *)
Definition init : scan := mkScan [] None false.

Definition _parse_tracer_output (tracer_output target_variable : pyval)
  : outcome (list string) :=
  match target_variable, tracer_output with
  | PStr target, PList lines => for_loop target init lines
  | _, _ => Ok (result init)
  end.

(** A trace whose lines are all strings. *)
Definition trace (lines : list string) : pyval := PList (map PStr lines).

(** The token boundary: the text after the target is empty or starts with
    a character that is not an identifier character. *)
Definition boundary (rest : list ascii) : bool :=
  match rest with
  | [] => true
  | c :: _ => negb (is_word c)
  end.

Definition ktrue : cont := fun _ _ => true.

(** [isinstance(v, str)] and [isinstance(v, list)] *)
Definition is_str (v : pyval) : bool :=
  match v with PStr _ => true | _ => false end.

Definition is_list (v : pyval) : bool :=
  match v with PList _ => true | _ => false end.

(** The loop run over a prefix of the list: the state in which the next
    element is reached, or how the loop ended before it. *)
Fixpoint scan_lines (target_variable : string) (st : scan)
  (lines : list pyval) : step :=
  match lines with
  | [] => Next st
  | line :: rest =>
      match loop_body target_variable st line with
      | Next st' => scan_lines target_variable st' rest
      | other => other
      end
  end.

Definition omap {A B} (f : A -> B) (o : outcome A) : outcome B :=
  match o with
  | Ok a => Ok (f a)
  | Raise e => Raise e
  end.

(** *** The specification's reading of depth and of the match

    The glossary defines the indentation depth of a line as the count of
    its leading whitespace characters. *)
Definition leading_depth (line : string) : nat :=
  length (chars line) - length (lstrip (chars line)).

(** [l] begins with [p]: what comes after it. *)
Fixpoint after_prefix (p l : list ascii) : option (list ascii) :=
  match p, l with
  | [], _ => Some l
  | c :: p', c' :: l' => if Ascii.eqb c c' then after_prefix p' l' else None
  | _ :: _, [] => None
  end.

(** The text after the first [>], if there is one. *)
Fixpoint after_gt (l : list ascii) : option (list ascii) :=
  match l with
  | [] => None
  | c :: t => if Ascii.eqb c ">" then Some t else after_gt t
  end.

(** A closed reading of the match rule: the line stripped of its leading
    whitespace is the target as a whole token, then optionally whitespace
    and one bracketed annotation, then optionally whitespace, and nothing
    else. *)
Definition closed_line_match (target_variable line : string) : bool :=
  match after_prefix (chars target_variable) (lstrip (chars line)) with
  | None => false
  | Some rest =>
      boundary rest &&
      match lstrip rest with
      | [] => true
      | c :: body =>
          Ascii.eqb c "<" &&
          match after_gt body with
          | Some trail => forallb is_space trail
          | None => false
          end
      end
  end.

(** ** Prompt rendering *)

Definition nl : string := String (ascii_of_nat 10) "".
Definition dquote : ascii := ascii_of_nat 34.
Definition squote : ascii := ascii_of_nat 39.
Definition backslash : ascii := ascii_of_nat 92.

Definition of_chars (l : list ascii) : string := string_of_list_ascii l.

Definition hex_digit (n : nat) : ascii :=
  nth n (chars "0123456789abcdef") "0"%char.

(** One character of [repr(s)] for a [str] quoted with [quote]. *)
Definition repr_char (quote c : ascii) : list ascii :=
  let n := code c in
  if Ascii.eqb c quote || Ascii.eqb c backslash then [backslash; c]
  else if n =? 9 then [backslash; "t"%char]
  else if n =? 10 then [backslash; "n"%char]
  else if n =? 13 then [backslash; "r"%char]
  else if (n <? 32) || (n =? 127) || in_range 128 160 n || (n =? 173)
  then [backslash; "x"%char; hex_digit (n / 16); hex_digit (n mod 16)]
  else [c].

Definition has_char (c : ascii) (l : list ascii) : bool :=
  existsb (Ascii.eqb c) l.

(** [repr(s)]: single quotes, unless [s] holds a single quote and no
    double quote. *)
Definition py_repr (s : string) : list ascii :=
  let l := chars s in
  let quote :=
    if has_char squote l && negb (has_char dquote l) then dquote
    else squote in
  quote :: flat_map (repr_char quote) l ++ [quote].

Fixpoint join (sep : list ascii) (parts : list (list ascii)) : list ascii :=
  match parts with
  | [] => []
  | [x] => x
  | x :: rest => x ++ sep ++ join sep rest
  end.

(** [str(xs)] for a list of [str]. *)
Definition py_str_list (xs : list string) : string :=
  of_chars ("["%char :: join (chars ", ") (map py_repr xs) ++ ["]"%char]).

Fixpoint assoc (key : string) (kwargs : list (string * string))
  : option string :=
  match kwargs with
  | [] => None
  | (k, v) :: rest => if String.eqb k key then Some v else assoc key rest
  end.

Definition prepend (pre : list ascii) (o : outcome (list ascii))
  : outcome (list ascii) :=
  match o with
  | Ok l => Ok (pre ++ l)
  | Raise e => Raise e
  end.

(** [str.format] with keyword arguments, for templates made of text,
    doubled braces and plain replacement fields.  [field] holds the name
    of the field being read, if any. *)
Fixpoint format_run (kwargs : list (string * string)) (tpl : list ascii)
  (field : option (list ascii)) : outcome (list ascii) :=
  match tpl with
  | [] =>
      match field with
      | None => Ok []
      | Some _ => Raise (ValueError "expected '}' before end of string")
      end
  | c :: t =>
      match field with
      | Some name =>
          if Ascii.eqb c "}" then
            match assoc (of_chars name) kwargs with
            | Some v => prepend (chars v) (format_run kwargs t None)
            | None => Raise (KeyError (of_chars name))
            end
          else format_run kwargs t (Some (name ++ [c]))
      | None =>
          if Ascii.eqb c "{" then
            match t with
            | c' :: t' =>
                if Ascii.eqb c' "{"
                then prepend ["{"%char] (format_run kwargs t' None)
                else format_run kwargs t (Some [])
            | [] => Raise (ValueError "Single '{' encountered in format string")
            end
          else if Ascii.eqb c "}" then
            match t with
            | c' :: t' =>
                if Ascii.eqb c' "}"
                then prepend ["}"%char] (format_run kwargs t' None)
                else Raise (ValueError
                              "Single '}' encountered in format string")
            | [] => Raise (ValueError "Single '}' encountered in format string")
            end
          else prepend [c] (format_run kwargs t None)
      end
  end.

Definition format (tpl : string) (kwargs : list (string * string))
  : outcome string :=
  match format_run kwargs (chars tpl) None with
  | Ok l => Ok (of_chars l)
  | Raise e => Raise e
  end.

(** [anthropic.HUMAN_PROMPT], a constant of the SDK: two newlines and the
    word Human followed by a colon. *)
Definition HUMAN_PROMPT : string := nl +:+ nl +:+ "Human:".

(** The class attribute [prompt_template] once its f-string is evaluated:
    [HUMAN_PROMPT] is spliced in, doubled braces become the single braces
    of the replacement fields and the doubled backslash becomes one. *)
Definition prompt_template : string :=
  HUMAN_PROMPT
  +:+ " You are an AI assistant explaining policy calculations. " +:+ nl
  +:+ "  The user has run a simulation for the variable '{variable}'." +:+ nl
  +:+ "  Here's the tracer output:" +:+ nl
  +:+ "  {tracer_segment}" +:+ nl
  +:+ "      " +:+ nl
  +:+ "  Please explain this result in clear, factual terms. Your explanation should:" +:+ nl
  +:+ "  1. Briefly describe what {variable} is." +:+ nl
  +:+ "  2. Explain the main factors that led to this result." +:+ nl
  +:+ "  3. Mention any key thresholds or rules that affected the calculation." +:+ nl
  +:+ "  4. If relevant, suggest how changes in input might affect this result." +:+ nl
  +:+ "      " +:+ nl
  +:+ "  Provide only factual explanations of the policy mechanics. Do not include commentary, opinions, quotes, or phrases like "
  +:+ String dquote "Certainly!" +:+ String dquote " or "
  +:+ String dquote "Here's an explanation." +:+ String dquote
        " The response will be rendered as markdown, so preface $ with \.".

(** [self.prompt_template.format(variable=..., tracer_segment=...)] *)
Definition render_prompt (variable : string) (tracer_segment : list string)
  : outcome string :=
  format prompt_template
    [("variable", variable); ("tracer_segment", py_str_list tracer_segment)].

(** ** The dispatcher and its collaborators *)

(** A row of the [tracers] table. *)
Record tracer_row : Type := mkRow {
  row_household_id : string;
  row_policy_id : string;
  row_country_id : string;
  row_api_version : string;
  tracer_output : string
}.

(** What lies outside the service: the version table, the [tracers] table
    of [local_database], the decoding done by [json.loads], and the two
    methods inherited from [AIAnalysisService], the cache lookup and the
    generation backend (a generator is given by the chunks it yields). *)
Record World : Type := mkWorld {
  COUNTRY_PACKAGE_VERSIONS : gmap string string;
  tracers : list tracer_row;
  json_loads : string -> outcome pyval;
  analysis_cache : string -> outcome (option string);
  generation_backend : string -> outcome (list string)
}.

(** Calls to collaborators and lines printed, in order. *)
Inductive event : Type :=
| EQuery (household_id policy_id country_id api_version : string)
| EPrint (text : string)
| ECacheLookup (prompt : string)
| EGenerate (prompt : string).

(** Computations that read the world, log events and may raise. *)
Definition M (A : Type) : Type :=
  World -> list event -> outcome A * list event.

Definition ret {A} (a : A) : M A := fun _ log => (Ok a, log).

Definition raise {A} (e : exn) : M A := fun _ log => (Raise e, log).

Definition bind {A B} (m : M A) (k : A -> M B) : M B :=
  fun w log =>
    match m w log with
    | (Ok a, log') => k a w log'
    | (Raise e, log') => (Raise e, log')
    end.

Notation "x <- m ;; k" := (bind m (fun x => k))
  (at level 100, m at next level, right associativity).
Notation "m ;;; k" := (bind m (fun _ => k))
  (at level 100, right associativity).

Definition ask : M World := fun w log => (Ok w, log).

Definition emit (ev : event) : M unit := fun _ log => (Ok tt, log ++ [ev]).

Definition lift {A} (o : outcome A) : M A := fun _ log => (o, log).

(** [try: m  except Exception as e: h e] *)
Definition try_except {A} (m : M A) (h : exn -> M A) : M A :=
  fun w log =>
    match m w log with
    | (Ok a, log') => (Ok a, log')
    | (Raise e, log') => h e w log'
    end.

(** [str(e)] *)
Definition str_exn (e : exn) : string :=
  match e with
  | TypeError msg | AttributeError msg | ValueError msg
  | ExternalError msg => msg
  | KeyError key => of_chars (py_repr key)
  | NotFound description => "404 Not Found: " +:+ description
  end.

Definition print (text : string) : M unit := emit (EPrint text).

(** The [SELECT ... WHERE household_id = ? AND policy_id = ? AND
    country_id = ? AND api_version = ?] followed by [fetchone()]. *)
Definition fetchone (rows : list tracer_row)
  (household_id policy_id country_id api_version : string)
  : option tracer_row :=
  find (fun row =>
          String.eqb (row_household_id row) household_id
          && String.eqb (row_policy_id row) policy_id
          && String.eqb (row_country_id row) country_id
          && String.eqb (row_api_version row) api_version) rows.

Definition get_tracer (country_id household_id policy_id api_version : string)
  : M pyval :=
  try_except
    (w <- ask ;;
     emit (EQuery household_id policy_id country_id api_version) ;;;
     match fetchone (tracers w) household_id policy_id country_id api_version
     with
     | None => raise (NotFound "No household simulation tracer found")
     | Some row => lift (json_loads w (tracer_output row))
     end)
    (fun e =>
       print ("Error getting existing tracer analysis: " +:+ str_exn e) ;;;
       raise e).

Definition get_existing_analysis (prompt : string) : M (option string) :=
  w <- ask ;;
  emit (ECacheLookup prompt) ;;;
  lift (analysis_cache w prompt).

Definition trigger_ai_analysis (prompt : string) : M (list string) :=
  w <- ask ;;
  emit (EGenerate prompt) ;;;
  lift (generation_backend w prompt).

(** The first component of the returned pair: a string, or a generator. *)
Inductive content : Type :=
| Text (analysis : string)
| Stream (chunks : list string).

Inductive mode : Type := static | streaming.

Definition execute_analysis
  (country_id household_id policy_id variable : string)
  : M (content * mode) :=
  w <- ask ;;
  api_version <-
    match COUNTRY_PACKAGE_VERSIONS w !! country_id with
    | Some v => ret v
    | None => raise (KeyError country_id)
    end ;;
  tracer <-
    try_except (get_tracer country_id household_id policy_id api_version)
      (fun e => raise e) ;;
  tracer_segment <-
    try_except (lift (_parse_tracer_output tracer (PStr variable)))
      (fun e =>
         print ("Error parsing tracer output: " +:+ str_exn e) ;;; raise e) ;;
  prompt <- lift (render_prompt variable tracer_segment) ;;
  existing_analysis <- get_existing_analysis prompt ;;
  match existing_analysis with
  | Some text => ret (Text text, static)
  | None =>
      try_except
        (analysis <- trigger_ai_analysis prompt ;;
         ret (Stream analysis, streaming))
        (fun e =>
           print ("Error generating AI analysis within tracer analysis service: "
                  +:+ str_exn e) ;;;
           raise e)
  end.

(** A call starts with an empty log. *)
Definition run {A} (m : M A) (w : World) : outcome A * list event := m w [].

(** ** Definitions used in the statements and proofs *)

(** The state of the loop: nothing captured before the first match; after
    it the first captured line fixes [target_indent], and every later
    captured line has a larger [indent]. *)
Definition scan_ok (st : scan) : Prop :=
  if capturing st then
    exists first others,
      result st = first :: others
      /\ target_indent st = Some (indent first)
      /\ Forall (fun l => indent first < indent l) others
  else result st = [].

(** A line without trailing whitespace. *)
Definition no_trailing_space (line : string) : Prop :=
  rstrip (lstrip (chars line)) = lstrip (chars line).

Definition consults (ev : event) : bool :=
  match ev with
  | ECacheLookup _ | EGenerate _ => true
  | _ => false
  end.

(** A log in which neither the cache nor the backend has been called. *)
Definition quiet (log : list event) : Prop :=
  forall ev, In ev log -> consults ev = false.

(** The steps of [execute_analysis] after the trace has been fetched. *)
Definition after_fetch (w : World) (variable : string) (tracer : pyval)
  (log : list event) : outcome (content * mode) * list event :=
  match _parse_tracer_output tracer (PStr variable) with
  | Raise e =>
      (Raise e, log ++ [EPrint ("Error parsing tracer output: " +:+ str_exn e)])
  | Ok tracer_segment =>
      match render_prompt variable tracer_segment with
      | Raise e => (Raise e, log)
      | Ok prompt =>
          let log' := log ++ [ECacheLookup prompt] in
          match analysis_cache w prompt with
          | Raise e => (Raise e, log')
          | Ok (Some text) => (Ok (Text text, static), log')
          | Ok None =>
              match generation_backend w prompt with
              | Ok chunks =>
                  (Ok (Stream chunks, streaming), log' ++ [EGenerate prompt])
              | Raise e =>
                  (Raise e,
                   log' ++ [EGenerate prompt]
                     ++ [EPrint
                           ("Error generating AI analysis within tracer analysis service: "
                            +:+ str_exn e)])
              end
          end
      end
  end.

(** Case analysis on membership in a log built by appending. *)
Ltac log_cases H :=
  repeat (rewrite in_app_iff in H; simpl in H);
  repeat match type of H with
         | _ \/ _ => destruct H as [H|H]
         | False => contradiction
         end.

(** *** Two concrete worlds, used to instantiate the theorems *)

Definition us_world : World :=
  mkWorld {[ "us" := "1.0" ]}
    [mkRow "h1" "p1" "us" "1.0" "stored trace"]
    (fun _ => Ok (trace ["value1"; "  value1.1"; "value2"]))
    (fun _ => Ok (Some "cached explanation"))
    (fun _ => Raise (ExternalError "backend unavailable")).

Definition uk_world : World :=
  mkWorld {[ "uk" := "2.3" ]}
    [mkRow "h9" "p9" "uk" "2.3" "another stored trace"]
    (fun _ => Ok (trace ["other"; "value1"; "  value1.1"; "value2"; "last"]))
    (fun _ => Ok None)
    (fun _ => Ok ["It "; "depends."]).

Definition value1_prompt : string :=
  match render_prompt "value1" ["value1"; "  value1.1"] with
  | Ok prompt => prompt
  | Raise _ => ""
  end.

(** The end of a subtree: nothing left, or a string that is not deeper
    than [ti]. *)
Definition ends_subtree (ti : nat) (post : list pyval) : Prop :=
  match post with
  | [] => True
  | PStr n :: _ => indent n <= ti
  | _ :: _ => False
  end.

(** A world with one record, under the key (h1, p1, us, 1.0), in which the
    decoder, the cache and the backend each give a fixed answer. *)
Definition demo_world (decoded : outcome pyval)
  (cached : outcome (option string)) (generated : outcome (list string))
  : World :=
  mkWorld {[ "us" := "1.0" ]}
    [mkRow "h1" "p1" "us" "1.0" "stored trace"]
    (fun _ => decoded) (fun _ => cached) (fun _ => generated).

(** Text of a template without braces. *)
Definition no_brace (l : list ascii) : bool :=
  forallb (fun c => negb (Ascii.eqb c "{") && negb (Ascii.eqb c "}")) l.

(** The four stretches of text of [prompt_template], between its three
    replacement fields. *)
Definition template_before_variable : string :=
  HUMAN_PROMPT
  +:+ " You are an AI assistant explaining policy calculations. " +:+ nl
  +:+ "  The user has run a simulation for the variable '".

Definition template_before_segment : string :=
  "'." +:+ nl +:+ "  Here's the tracer output:" +:+ nl +:+ "  ".

Definition template_after_segment : string :=
  nl +:+ "      " +:+ nl
  +:+ "  Please explain this result in clear, factual terms. Your explanation should:" +:+ nl
  +:+ "  1. Briefly describe what ".

Definition template_end : string :=
  " is." +:+ nl
  +:+ "  2. Explain the main factors that led to this result." +:+ nl
  +:+ "  3. Mention any key thresholds or rules that affected the calculation." +:+ nl
  +:+ "  4. If relevant, suggest how changes in input might affect this result." +:+ nl
  +:+ "      " +:+ nl
  +:+ "  Provide only factual explanations of the policy mechanics. Do not include commentary, opinions, quotes, or phrases like "
  +:+ String dquote "Certainly!" +:+ String dquote " or "
  +:+ String dquote "Here's an explanation." +:+ String dquote
        " The response will be rendered as markdown, so preface $ with \.".

(** ** Properties *)

(** C1: on the trace value1 / value1.1 / value1.2 / value1.2.1 / value2 with
    target value1 the extractor returns the first four lines, stopping at
    value2, whose depth 0 is not greater than the target depth 0. *)
Theorem parse_example_value1 :
  _parse_tracer_output
    (trace ["value1"; "  value1.1"; "  value1.2"; "    value1.2.1"; "value2"])
    (PStr "value1")
  = Ok ["value1"; "  value1.1"; "  value1.2"; "    value1.2.1"]
  /\ indent "value2" = 0 /\ indent "value1" = 0.
Proof. vm_compute. repeat split. Qed.

Example match_examples :
  line_matches "value1" "value1" = true
  /\ line_matches "value1" "    value1 <42> " = true
  /\ line_matches "value1" "value10" = false
  /\ line_matches "value1" "value1_x" = false
  /\ line_matches "value1" "x value1" = false
  /\ line_matches " x" "  x" = true.
Proof. vm_compute. repeat split. Qed.

Example indent_examples :
  indent "    value1.2.1" = 4 /\ indent "  x " = 3 /\ indent "   " = 3
  /\ leading_depth "  x " = 2.
Proof. vm_compute. repeat split. Qed.

Example first_occurrence_only :
  _parse_tracer_output
    (trace ["a"; "  value1"; "    b"; "  c"; "  value1"; "    d"])
    (PStr "value1")
  = Ok ["  value1"; "    b"].
Proof. reflexivity. Qed.

Example py_str_list_example :
  py_str_list ["value1"; "  value1.1"] = "['value1', '  value1.1']".
Proof. reflexivity. Qed.

(** A cache miss: the prompt is looked up, then sent to the backend, and
    the chunks come back with mode streaming. *)
Example cache_miss_streams :
  run (execute_analysis "uk" "h9" "p9" "value1") uk_world
  = (Ok (Stream ["It "; "depends."], streaming),
     [EQuery "h9" "p9" "uk" "2.3"; ECacheLookup value1_prompt;
      EGenerate value1_prompt]).
Proof. vm_compute. reflexivity. Qed.

(** An unknown country fails before anything is fetched. *)
Example unknown_country :
  run (execute_analysis "fr" "h1" "p1" "value1") us_world
  = (Raise (KeyError "fr"), []).
Proof. vm_compute. reflexivity. Qed.

(** *** The match predicate *)

Lemma star_cls_ktrue (p : ascii -> bool) (k : cont) i s :
  (forall j s', k j s' = true) -> star_cls p k i s = true.
Proof.
  intros Hk. destruct s as [|c t]; simpl; [apply Hk|].
  destruct (p c); [|apply Hk]. rewrite (Hk i (c :: t)). apply orb_true_r.
Qed.

Lemma star_cls_spec (p : ascii -> bool) (k : cont) s : forall i,
  star_cls p k i s = true <->
  exists ws s', s = ws ++ s' /\ forallb p ws = true
                /\ k (i + length ws) s' = true.
Proof.
  induction s as [|c t IH]; intros i; simpl.
  - split.
    + intros H. exists [], []. simpl. rewrite Nat.add_0_r. auto.
    + intros (ws & s' & E & _ & H).
      symmetry in E. apply app_eq_nil in E as [-> ->].
      simpl in H. now rewrite Nat.add_0_r in H.
  - split.
    + intros H.
      assert (Hcases : (p c = true /\ star_cls p k (S i) t = true)
                       \/ k i (c :: t) = true).
      { destruct (p c); [apply orb_true_iff in H as [H|H]|]; auto. }
      destruct Hcases as [[Hp Hs]|Hk].
      * apply IH in Hs as (ws & s' & -> & Hws & Hk).
        exists (c :: ws), s'. simpl. rewrite Hp, Hws.
        replace (i + S (length ws)) with (S i + length ws) by lia. auto.
      * exists [], (c :: t). simpl. rewrite Nat.add_0_r. auto.
    + intros (ws & s' & E & Hws & Hk). destruct ws as [|w ws].
      * simpl in E, Hk. subst s'. rewrite Nat.add_0_r in Hk.
        destruct (p c); [apply orb_true_iff|]; auto.
      * simpl in E. injection E as <- ->. simpl in Hws, Hk.
        apply andb_true_iff in Hws as [Hc Hws]. rewrite Hc.
        apply orb_true_iff. left. apply IH. exists ws, s'.
        replace (S i + length ws) with (i + S (length ws)) by lia. auto.
Qed.

Lemma re_escape_spec (t : list ascii) (k : cont) : forall i s,
  re_run (re_escape t) i s k = true <->
  exists s', s = t ++ s' /\ k (i + length t) s' = true.
Proof.
  induction t as [|c t IH]; intros i s; simpl.
  - rewrite Nat.add_0_r. split; [eauto|]. now intros (s' & -> & H).
  - destruct s as [|c' s].
    + split; [discriminate|]. intros (s' & E & _). discriminate.
    + destruct (Ascii.eqb c c') eqn:Ec.
      * apply Ascii.eqb_eq in Ec as <-. rewrite IH.
        replace (i + S (length t)) with (S i + length t) by lia.
        split; intros (s' & E & H); exists s'; split; auto; congruence.
      * apply Ascii.eqb_neq in Ec.
        split; [discriminate|]. intros (s' & E & _). congruence.
Qed.

(** What follows the lookahead in the pattern can always match the empty
    string, so it never makes the match fail. *)
Lemma pattern_tail_matches i s :
  re_run (Seq (StarCls is_space)
            (Seq (Opt (Seq (Lit "<") (Seq (StarCls not_gt) (Lit ">"))))
                 (StarCls is_space))) i s ktrue = true.
Proof.
  simpl. apply star_cls_ktrue. intros j s'.
  apply orb_true_iff. right. now apply star_cls_ktrue.
Qed.

Lemma lookahead_boundary (k : cont) i s :
  re_run (NotAhead (Cls is_word)) i s k = (boundary s && k i s)%bool.
Proof.
  destruct s as [|c t]; simpl; [reflexivity|]. now destruct (is_word c).
Qed.

(** The match the code computes, spelled out: some leading whitespace, the
    target, and a token boundary; the rest of the line is free. *)
Lemma line_matches_spec (target line : string) :
  line_matches target line = true <->
  exists ws rest, chars line = ws ++ chars target ++ rest
                  /\ forallb is_space ws = true /\ boundary rest = true.
Proof.
  unfold line_matches, re_match, pattern.
  change (re_run (Seq Bol ?r) 0 ?s ?k) with (re_run r 0 s k).
  change (re_run (Seq (StarCls ?p) ?r) ?i ?s ?k)
    with (star_cls p (fun i' s' => re_run r i' s' k) i s).
  rewrite star_cls_spec. fold ktrue.
  split.
  - intros (ws & s' & E & Hws & H). exists ws.
    change (re_run (Seq ?a ?r) ?i ?s ?k)
      with (re_run a i s (fun i' s' => re_run r i' s' k)) in H.
    apply re_escape_spec in H as (rest & -> & H).
    change (re_run (Seq ?a ?r) ?i ?s ?k)
      with (re_run a i s (fun i' s' => re_run r i' s' k)) in H.
    rewrite lookahead_boundary in H. apply andb_true_iff in H as [Hb _].
    exists rest. auto.
  - intros (ws & rest & E & Hws & Hb).
    exists ws, (chars target ++ rest). repeat split; auto.
    change (re_run (Seq ?a ?r) ?i ?s ?k)
      with (re_run a i s (fun i' s' => re_run r i' s' k)).
    apply re_escape_spec. exists rest. split; [reflexivity|].
    change (re_run (Seq ?a ?r) ?i ?s ?k)
      with (re_run a i s (fun i' s' => re_run r i' s' k)).
    rewrite lookahead_boundary, Hb. simpl andb.
    apply pattern_tail_matches.
Qed.

(** *** The loop *)

Lemma for_loop_scan (t : string) (pre post : list pyval) : forall st,
  for_loop t st (pre ++ post) =
  match scan_lines t st pre with
  | Next st' => for_loop t st' post
  | Break st' => Ok (result st')
  | Fail e => Raise e
  end.
Proof.
  induction pre as [|x pre IH]; intros st; simpl; [reflexivity|].
  destruct (loop_body t st x); auto.
Qed.

(** Before the first match the loop leaves its state alone. *)
Lemma scan_lines_no_match (t : string) (ls : list string) (st : scan) :
  capturing st = false ->
  forallb (fun l => negb (line_matches t l)) ls = true ->
  scan_lines t st (map PStr ls) = Next st.
Proof.
  intros Hc. induction ls as [|l ls IH]; simpl; [reflexivity|].
  intros H. apply andb_true_iff in H as [Hl Hls].
  apply negb_true_iff in Hl.
  unfold loop_body. simpl. rewrite Hl, Hc. simpl. auto.
Qed.

(** Lines already captured stay in front of the result. *)
Lemma for_loop_result_app (t : string) (pre : list string) (ls : list pyval) :
  forall r ti c,
  for_loop t (mkScan (pre ++ r) ti c) ls
  = omap (app pre) (for_loop t (mkScan r ti c) ls).
Proof.
  induction ls as [|x ls IH]; intros r ti c; simpl; [reflexivity|].
  unfold loop_body. destruct (eval_indent x) as [[s ind]|e]; simpl; auto.
  destruct (line_matches t s && negb c)%bool.
  - rewrite <- app_assoc. apply IH.
  - destruct c; [|apply IH].
    destruct ti as [ti|]; [|reflexivity].
    destruct (ind <=? ti); [reflexivity|].
    rewrite <- app_assoc. apply IH.
Qed.

Lemma loop_body_scan_ok (t : string) (st st' : scan) (x : pyval) :
  scan_ok st -> loop_body t st x = Next st' -> scan_ok st'.
Proof.
  unfold loop_body, scan_ok. intros Hst.
  destruct x; simpl; try discriminate.
  destruct (capturing st) eqn:Hc.
  - destruct Hst as (first & others & Hr & Hti & Hall).
    rewrite andb_false_r, Hti.
    destruct (indent s <=? indent first) eqn:Hle; [discriminate|].
    intros [= <-]. simpl.
    exists first, (others ++ [s]). rewrite Hr. repeat split.
    apply Forall_app. split; [assumption|].
    constructor; [|constructor]. apply Nat.leb_gt in Hle. lia.
  - rewrite andb_true_r. destruct (line_matches t s).
    + intros [= <-]. simpl. exists s, []. rewrite Hst. auto.
    + intros [= <-]. now rewrite Hc.
Qed.

Lemma loop_body_break (t : string) (st st' : scan) (x : pyval) :
  loop_body t st x = Break st' -> st' = st.
Proof.
  unfold loop_body. destruct (eval_indent x) as [[s ind]|e]; [|discriminate].
  destruct (line_matches t s && negb (capturing st))%bool; [discriminate|].
  destruct (capturing st); [|discriminate].
  destruct (target_indent st) as [ti|]; [|discriminate].
  destruct (ind <=? ti); congruence.
Qed.

Lemma for_loop_scan_ok (t : string) (ls : list pyval) : forall st seg,
  scan_ok st -> for_loop t st ls = Ok seg ->
  exists st', scan_ok st' /\ result st' = seg.
Proof.
  induction ls as [|x ls IH]; intros st seg Hst; simpl.
  - intros [= <-]. eauto.
  - destruct (loop_body t st x) as [st'|st'|e] eqn:Hb; [| |discriminate].
    + apply IH. eapply loop_body_scan_ok; eauto.
    + apply loop_body_break in Hb as ->. intros [= <-]. eauto.
Qed.

(** The segment invariant, for the depth the code computes: the first
    line of a segment has the smallest [indent] and every other line a
    strictly larger one. *)
Lemma segment_invariant_indent (tracer_output target : pyval)
  (first : string) (others : list string) :
  _parse_tracer_output tracer_output target = Ok (first :: others) ->
  Forall (fun l => indent first < indent l) others.
Proof.
  unfold _parse_tracer_output.
  destruct target; try discriminate.
  destruct tracer_output; try discriminate.
  intros H. apply for_loop_scan_ok in H as (st & Hst & Hr); [|reflexivity].
  unfold scan_ok in Hst. destruct (capturing st).
  - destruct Hst as (f & o & Hr' & _ & Hall).
    rewrite Hr in Hr'. now injection Hr' as -> ->.
  - congruence.
Qed.

(** On a line without trailing whitespace the code's depth is the count
    of leading whitespace characters. *)
Lemma indent_leading_depth (line : string) :
  no_trailing_space line -> indent line = leading_depth line.
Proof.
  unfold no_trailing_space, indent, leading_depth, strip. now intros ->.
Qed.

(** So on segments whose lines carry no trailing whitespace the invariant
    holds for the leading depth as well. *)
Lemma segment_invariant_leading_depth (tracer_output target : pyval)
  (first : string) (others : list string) :
  _parse_tracer_output tracer_output target = Ok (first :: others) ->
  Forall no_trailing_space (first :: others) ->
  Forall (fun l => leading_depth first < leading_depth l) others.
Proof.
  intros H Hall. apply segment_invariant_indent in H.
  apply Forall_cons_iff in Hall as [Hf Ho].
  rewrite <- (indent_leading_depth first Hf).
  induction H as [|l ls Hl _ IH]; constructor.
  - apply Forall_cons_iff in Ho as [Hl' _].
    now rewrite <- (indent_leading_depth l Hl').
  - apply IH. now apply Forall_cons_iff in Ho as [_ Ho].
Qed.

(** *** Splitting a line at its leading whitespace *)

Lemma lstrip_split (l : list ascii) :
  exists ws, l = ws ++ lstrip l /\ forallb is_space ws = true.
Proof.
  induction l as [|c t (ws & E & Hws)]; simpl.
  - exists []. auto.
  - destruct (is_space c) eqn:Hc.
    + exists (c :: ws). split; simpl.
      * now f_equal.
      * now rewrite Hc.
    + exists []. auto.
Qed.

Lemma after_prefix_spec (p : list ascii) : forall l rest,
  after_prefix p l = Some rest -> l = p ++ rest.
Proof.
  induction p as [|c p IH]; intros l rest; simpl.
  - now intros [= ->].
  - destruct l as [|c' l]; [discriminate|].
    destruct (Ascii.eqb c c') eqn:Ec; [|discriminate].
    apply Ascii.eqb_eq in Ec as <-. intros H. now rewrite (IH _ _ H).
Qed.

(** Every line of the closed form is a match for the code. *)
Lemma closed_match_is_code_match (target line : string) :
  closed_line_match target line = true -> line_matches target line = true.
Proof.
  unfold closed_line_match. intros H.
  destruct (after_prefix _ _) as [rest|] eqn:Ea; [|discriminate].
  apply andb_true_iff in H as [Hb _].
  apply after_prefix_spec in Ea.
  destruct (lstrip_split (chars line)) as (ws & E & Hws).
  apply line_matches_spec. exists ws, rest. rewrite Ea in E. auto.
Qed.

Lemma lstrip_spaces_app (ws l : list ascii) :
  forallb is_space ws = true -> lstrip (ws ++ l) = lstrip l.
Proof.
  induction ws as [|c ws IH]; simpl; [reflexivity|].
  intros H. apply andb_true_iff in H as [Hc Hws]. rewrite Hc. auto.
Qed.

(** For a target that starts with a character other than whitespace, the
    leading whitespace skipped is all of it. *)
Lemma line_matches_lstrip (target line : string) (c : ascii)
  (t : list ascii) :
  chars target = c :: t -> is_space c = false ->
  (line_matches target line = true <->
   exists rest, lstrip (chars line) = chars target ++ rest
                /\ boundary rest = true).
Proof.
  intros Ht Hc. rewrite line_matches_spec. split.
  - intros (ws & rest & E & Hws & Hb). exists rest. split; [|exact Hb].
    rewrite E, lstrip_spaces_app, Ht by exact Hws. simpl. now rewrite Hc.
  - intros (rest & E & Hb).
    destruct (lstrip_split (chars line)) as (ws & E' & Hws).
    exists ws, rest. rewrite E in E'. auto.
Qed.

(** *** The segment extractor *)

(** A single matching line whose successor, if any, is not deeper for the
    code's [indent] is returned alone. *)
Lemma single_line_segment_indent (t l : string) (pre post : list string) :
  forallb (fun x => negb (line_matches t x)) pre = true ->
  line_matches t l = true ->
  match post with [] => True | n :: _ => indent n <= indent l end ->
  _parse_tracer_output (trace (pre ++ l :: post)) (PStr t) = Ok [l].
Proof.
  intros Hpre Hl Hpost. unfold _parse_tracer_output, trace.
  rewrite map_app, for_loop_scan, scan_lines_no_match by auto.
  simpl. unfold loop_body at 1. simpl. rewrite Hl. simpl.
  destruct post as [|n post]; simpl; [reflexivity|].
  unfold loop_body. simpl. rewrite andb_false_r.
  apply Nat.leb_le in Hpost. now rewrite Hpost.
Qed.

(** The same for the leading depth, when neither the matching line nor
    its successor ends in whitespace. *)
Lemma single_line_segment_leading_depth (t l : string)
  (pre post : list string) :
  forallb (fun x => negb (line_matches t x)) pre = true ->
  line_matches t l = true ->
  no_trailing_space l ->
  match post with
  | [] => True
  | n :: _ => no_trailing_space n /\ leading_depth n <= leading_depth l
  end ->
  _parse_tracer_output (trace (pre ++ l :: post)) (PStr t) = Ok [l].
Proof.
  intros Hpre Hl Hnl Hpost. apply single_line_segment_indent; auto.
  destruct post as [|n post]; [exact I|]. destruct Hpost as [Hn Hle].
  now rewrite !indent_leading_depth.
Qed.

(** C2: the segment invariant for the count of leading whitespace
    characters.  The code measures [len(line) - len(line.strip())], which
    also counts trailing whitespace: on the trace below the second line is
    captured although it has no leading whitespace at all, while the first
    has two leading spaces. *)
Theorem leading_depth_invariant_broken :
  _parse_tracer_output (trace ["  value1"; "x   "]) (PStr "value1")
  = Ok ["  value1"; "x   "]
  /\ leading_depth "  value1" = 2
  /\ leading_depth "x   " = 0
  /\ indent "x   " = 3.
Proof. vm_compute. repeat split. Qed.

(** C4, as the code has it: a line is a match exactly when, after some of
    its leading whitespace, it holds the target followed by a token
    boundary; the whitespace and the bracketed annotation after it are
    optional and the rest of the line is not constrained.  A line with an
    annotation matches and captures what the bare line captures, and
    rate_adjusted is no match for rate. *)
Theorem line_match_rule (target line : string) :
  (line_matches target line = true <->
   exists ws rest, chars line = ws ++ chars target ++ rest
                   /\ forallb is_space ws = true /\ boundary rest = true)
  /\ line_matches "value1" "value1 <42>" = true
  /\ (forall rest : list pyval,
        let tail := for_loop "value1" (mkScan [] (Some 0) true) rest in
        _parse_tracer_output (PList (PStr "value1 <42>" :: rest))
          (PStr "value1") = omap (cons "value1 <42>") tail
        /\ _parse_tracer_output (PList (PStr "value1" :: rest))
             (PStr "value1") = omap (cons "value1") tail)
  /\ line_matches "rate" "rate_adjusted" = false.
Proof.
  split; [apply line_matches_spec|].
  split; [reflexivity|]. split; [|reflexivity].
  intros rest tail. subst tail. split.
  - apply (for_loop_result_app "value1" ["value1 <42>"] rest [] (Some 0) true).
  - apply (for_loop_result_app "value1" ["value1"] rest [] (Some 0) true).
Qed.

(** C4 as stated fails: the second line of the end-to-end example is a
    match for the target value1 although text follows the token. *)
Lemma closed_match_counterexample :
  ~ (line_matches "value1" "  value1.1" = true
     <-> closed_line_match "value1" "  value1.1" = true).
Proof. vm_compute. intros [H _]. specialize (H eq_refl). discriminate. Qed.

(** C5: the single-line property for the count of leading whitespace
    characters.  The target appears once and the line after it has the
    same leading depth, yet that line is captured too, because its
    trailing space counts in the code's depth. *)
Theorem single_line_segment_broken :
  line_matches "value1" "value1" = true
  /\ line_matches "value1" "x " = false
  /\ leading_depth "x " <= leading_depth "value1"
  /\ _parse_tracer_output (trace ["value1"; "x "]) (PStr "value1")
     = Ok ["value1"; "x "].
Proof. vm_compute. repeat split; lia. Qed.

(** C7: when no line of the trace matches the variable, the segment is
    empty. *)
Theorem no_match_empty_segment (T : list string) (V : string) :
  forallb (fun l => negb (line_matches V l)) T = true ->
  _parse_tracer_output (trace T) (PStr V) = Ok [].
Proof.
  intros H. unfold _parse_tracer_output, trace.
  rewrite <- (app_nil_r (map PStr T)), for_loop_scan.
  now rewrite scan_lines_no_match.
Qed.

Lemma no_match_empty_segment_witness :
  forallb (fun l => negb (line_matches "value3" l))
    ["value1"; "  value1.1"; "value2"] = true
  /\ _parse_tracer_output (trace ["value1"; "  value1.1"; "value2"])
       (PStr "value3") = Ok [].
Proof.
  split; [reflexivity|]. apply no_match_empty_segment. reflexivity.
Defined.

(** C8: when the target is not a string or the trace is not a list, the
    extractor returns the empty segment and raises nothing. *)
Theorem invalid_input_empty_segment (tracer_output target_variable : pyval) :
  is_str target_variable = false \/ is_list tracer_output = false ->
  _parse_tracer_output tracer_output target_variable = Ok [].
Proof.
  unfold _parse_tracer_output.
  intros [H|H].
  - destruct target_variable; try reflexivity. discriminate.
  - destruct target_variable; try reflexivity.
    destruct tracer_output; try reflexivity. discriminate.
Qed.

Lemma invalid_input_empty_segment_witness :
  (is_str PNone = false \/ is_list (PList [PStr "value1"]) = false)
  /\ _parse_tracer_output (PList [PStr "value1"]) PNone = Ok [].
Proof.
  split; [left; reflexivity|].
  apply invalid_input_empty_segment. left. reflexivity.
Defined.

(** C10: the guard only looks at the outer list.  When the loop reaches
    an element that is not a string, the extractor raises instead of
    returning a segment. *)
Theorem non_string_element_raises (target : string)
  (pre post : list pyval) (x : pyval) (st : scan) :
  scan_lines target init pre = Next st ->
  is_str x = false ->
  exists e,
    eval_indent x = Raise e
    /\ _parse_tracer_output (PList (pre ++ x :: post)) (PStr target)
       = Raise e.
Proof.
  intros Hpre Hx. unfold _parse_tracer_output.
  rewrite for_loop_scan, Hpre. simpl. unfold loop_body.
  destruct x; try discriminate; simpl; eauto.
Qed.

Lemma non_string_element_raises_witness :
  scan_lines "value1" init [PStr "value1"; PStr "  value1.1"]
  = Next (mkScan ["value1"; "  value1.1"] (Some 0) true)
  /\ is_str PNone = false
  /\ exists e,
       eval_indent PNone = Raise e
       /\ _parse_tracer_output
            (PList ([PStr "value1"; PStr "  value1.1"] ++ PNone :: [PStr "z"]))
            (PStr "value1") = Raise e.
Proof.
  split; [reflexivity|]. split; [reflexivity|].
  apply (non_string_element_raises "value1" _ _ PNone
           (mkScan ["value1"; "  value1.1"] (Some 0) true));
    reflexivity.
Defined.

(** *** Prompt rendering *)

(** Rendering never raises: the template is well formed and names only
    the two fields it is given. *)
Lemma render_prompt_total (variable : string) (tracer_segment : list string) :
  exists prompt, render_prompt variable tracer_segment = Ok prompt.
Proof.
  unfold render_prompt. generalize (py_str_list tracer_segment). intros seg.
  unfold format. vm_compute. eexists. reflexivity.
Qed.

(** *** The dispatcher *)

(** What a run of [get_tracer] returns and logs. *)
Lemma get_tracer_run (w : World) (log : list event)
  (country_id household_id policy_id api_version : string) :
  get_tracer country_id household_id policy_id api_version w log =
  let q := EQuery household_id policy_id country_id api_version in
  let failed e :=
    (Raise e,
     log ++ [q]
         ++ [EPrint ("Error getting existing tracer analysis: "
                     +:+ str_exn e)]) in
  match fetchone (tracers w) household_id policy_id country_id api_version with
  | None => failed (NotFound "No household simulation tracer found")
  | Some row =>
      match json_loads w (tracer_output row) with
      | Ok tracer => (Ok tracer, log ++ [q])
      | Raise e => failed e
      end
  end.
Proof.
  unfold get_tracer, try_except, bind, ask, emit, print, emit, raise, lift.
  cbv zeta.
  destruct (fetchone _ _ _ _ _) as [row|].
  - destruct (json_loads w (tracer_output row)); [reflexivity|].
    now rewrite <- app_assoc.
  - now rewrite <- app_assoc.
Qed.

Lemma get_tracer_consults_nothing (w : World)
  (country_id household_id policy_id api_version : string) :
  forallb (fun ev => negb (consults ev))
    (snd (run (get_tracer country_id household_id policy_id api_version) w))
  = true.
Proof.
  unfold run. rewrite get_tracer_run. cbv zeta.
  destruct (fetchone _ _ _ _ _) as [row|]; [|reflexivity].
  now destruct (json_loads w (tracer_output row)).
Qed.

(** A run of [execute_analysis], stage by stage. *)
Lemma execute_analysis_run (w : World)
  (country_id household_id policy_id variable : string) :
  run (execute_analysis country_id household_id policy_id variable) w =
  match COUNTRY_PACKAGE_VERSIONS w !! country_id with
  | None => (Raise (KeyError country_id), [])
  | Some api_version =>
      match run (get_tracer country_id household_id policy_id api_version) w
      with
      | (Raise e, log) => (Raise e, log)
      | (Ok tracer, log) => after_fetch w variable tracer log
      end
  end.
Proof.
  unfold run, execute_analysis, after_fetch.
  unfold bind at 1. unfold ask at 1. unfold bind at 1.
  destruct (COUNTRY_PACKAGE_VERSIONS w !! country_id) as [ver|];
    [|reflexivity].
  unfold ret at 1. unfold bind at 1. unfold try_except at 1.
  destruct (get_tracer country_id household_id policy_id ver w [])
    as [[tracer|e] log]; [|reflexivity].
  unfold bind at 1. unfold try_except at 1. unfold lift at 1.
  destruct (_parse_tracer_output tracer (PStr variable)) as [seg|e];
    [|reflexivity].
  unfold bind at 1. unfold lift at 1.
  destruct (render_prompt variable seg) as [prompt|e]; [|reflexivity].
  unfold get_existing_analysis, trigger_ai_analysis, try_except, bind, ask,
    emit, print, emit, raise, lift, ret.
  destruct (analysis_cache w prompt) as [[text|]|e]; try reflexivity.
  destruct (generation_backend w prompt) as [chunks|e]; [reflexivity|].
  now rewrite <- app_assoc.
Qed.

Lemma quiet_forallb (log : list event) :
  forallb (fun ev => negb (consults ev)) log = true -> quiet log.
Proof.
  intros H ev Hin. rewrite forallb_forall in H.
  now apply negb_true_iff, H.
Qed.

Lemma quiet_lookup (log : list event) (q : string) :
  quiet log -> ~ In (ECacheLookup q) log.
Proof. intros H Hin. now apply H in Hin. Qed.

Lemma quiet_generate (log : list event) (q : string) :
  quiet log -> ~ In (EGenerate q) log.
Proof. intros H Hin. now apply H in Hin. Qed.

(** Once a segment is extracted, the prompt rendered from it is the one
    looked up in the cache, and the only one sent to the backend. *)
Lemma after_fetch_prompts (w : World) (variable : string) (tracer : pyval)
  (log : list event) (seg : list string) :
  quiet log ->
  _parse_tracer_output tracer (PStr variable) = Ok seg ->
  exists prompt,
    render_prompt variable seg = Ok prompt
    /\ (forall q, In (ECacheLookup q) (snd (after_fetch w variable tracer log))
                  <-> q = prompt)
    /\ (forall q, In (EGenerate q) (snd (after_fetch w variable tracer log))
                  -> q = prompt).
Proof.
  intros Hq Hseg. unfold after_fetch. rewrite Hseg.
  destruct (render_prompt_total variable seg) as [prompt Hp].
  exists prompt. rewrite Hp. split; [reflexivity|].
  pose proof (quiet_lookup log) as Hl. pose proof (quiet_generate log) as Hg.
  destruct (analysis_cache w prompt) as [[text|]|e];
    [| destruct (generation_backend w prompt) as [chunks|e'] |];
    simpl; (split; intros q;
            [ split;
              [ intros H; log_cases H;
                solve [ congruence | exfalso; eapply Hl; eauto ]
              | intros ->; repeat (rewrite in_app_iff; simpl); auto ]
            | intros H; log_cases H;
              solve [ congruence | exfalso; eapply Hg; eauto ] ]).
Qed.

Lemma after_fetch_cache_hit (w : World) (variable : string) (tracer : pyval)
  (log : list event) (prompt text : string) :
  quiet log ->
  In (ECacheLookup prompt) (snd (after_fetch w variable tracer log)) ->
  analysis_cache w prompt = Ok (Some text) ->
  fst (after_fetch w variable tracer log) = Ok (Text text, static)
  /\ forall q, ~ In (EGenerate q) (snd (after_fetch w variable tracer log)).
Proof.
  intros Hq Hin Hhit. unfold after_fetch in *.
  pose proof (quiet_lookup log) as Hl. pose proof (quiet_generate log) as Hg.
  destruct (_parse_tracer_output tracer (PStr variable)) as [seg|e].
  - destruct (render_prompt variable seg) as [p|e].
    + assert (p = prompt) as ->.
      { destruct (analysis_cache w p) as [[t|]|e];
          [| destruct (generation_backend w p) |];
          simpl in Hin; log_cases Hin;
          solve [ congruence | exfalso; eapply Hl; eauto ]. }
      rewrite Hhit. simpl. split; [reflexivity|].
      intros q H. log_cases H; [|discriminate]. eapply Hg; eauto.
    + simpl in Hin. exfalso. eapply Hl; eauto.
  - simpl in Hin. log_cases Hin; [|discriminate]. exfalso. eapply Hl; eauto.
Qed.

(** C3: when the rendered prompt is in the cache, the call returns the
    cached text with mode static and the generation backend is not
    called. *)
Theorem cache_hit_returns_static (w : World)
  (country_id household_id policy_id variable prompt text : string) :
  let r := run (execute_analysis country_id household_id policy_id variable) w
  in
  In (ECacheLookup prompt) (snd r) ->
  analysis_cache w prompt = Ok (Some text) ->
  fst r = Ok (Text text, static) /\ forall q, ~ In (EGenerate q) (snd r).
Proof.
  cbv zeta. rewrite execute_analysis_run.
  destruct (COUNTRY_PACKAGE_VERSIONS w !! country_id) as [ver|];
    [|intros []].
  pose proof (quiet_forallb _
    (get_tracer_consults_nothing w country_id household_id policy_id ver))
    as Hq.
  destruct (run (get_tracer country_id household_id policy_id ver) w)
    as [[tracer|e] log]; simpl in Hq.
  - now apply after_fetch_cache_hit.
  - simpl. intros Hin. now apply quiet_lookup in Hin.
Qed.

(** C6: when the trace store has no record under the key, the call fails
    with the not-found error raised by [get_tracer], unchanged, and
    neither the cache nor the backend is called. *)
Theorem missing_trace_not_found (w : World)
  (country_id household_id policy_id variable api_version : string) :
  COUNTRY_PACKAGE_VERSIONS w !! country_id = Some api_version ->
  fetchone (tracers w) household_id policy_id country_id api_version = None ->
  let r := run (execute_analysis country_id household_id policy_id variable) w
  in
  fst r = Raise (NotFound "No household simulation tracer found")
  /\ fst (run (get_tracer country_id household_id policy_id api_version) w)
     = Raise (NotFound "No household simulation tracer found")
  /\ snd r =
     [EQuery household_id policy_id country_id api_version;
      EPrint "Error getting existing tracer analysis: 404 Not Found: No household simulation tracer found"]
  /\ forall q, ~ In (ECacheLookup q) (snd r) /\ ~ In (EGenerate q) (snd r).
Proof.
  intros Hver Hrow. cbv zeta.
  rewrite execute_analysis_run, Hver. unfold run.
  rewrite get_tracer_run, Hrow. cbv zeta. simpl.
  repeat split; try reflexivity; intros H; log_cases H; discriminate.
Qed.

(** C9: the prompt depends on the variable and the segment only.  Two
    calls, in any two worlds and for any keys, that extract the same
    segment for the same variable look up one and the same prompt, the
    rendering of that variable and segment, and send no other to the
    backend. *)
Theorem prompt_rendering_deterministic (w1 w2 : World)
  (c1 h1 p1 v1 c2 h2 p2 v2 variable : string) (t1 t2 : pyval)
  (seg : list string) :
  COUNTRY_PACKAGE_VERSIONS w1 !! c1 = Some v1 ->
  fst (run (get_tracer c1 h1 p1 v1) w1) = Ok t1 ->
  _parse_tracer_output t1 (PStr variable) = Ok seg ->
  COUNTRY_PACKAGE_VERSIONS w2 !! c2 = Some v2 ->
  fst (run (get_tracer c2 h2 p2 v2) w2) = Ok t2 ->
  _parse_tracer_output t2 (PStr variable) = Ok seg ->
  let log1 := snd (run (execute_analysis c1 h1 p1 variable) w1) in
  let log2 := snd (run (execute_analysis c2 h2 p2 variable) w2) in
  exists prompt,
    render_prompt variable seg = Ok prompt
    /\ (forall q, In (ECacheLookup q) log1 <-> q = prompt)
    /\ (forall q, In (ECacheLookup q) log2 <-> q = prompt)
    /\ (forall q, In (EGenerate q) log1 \/ In (EGenerate q) log2
                  -> q = prompt).
Proof.
  intros Hv1 Ht1 Hs1 Hv2 Ht2 Hs2. cbv zeta.
  rewrite !execute_analysis_run, Hv1, Hv2.
  pose proof (quiet_forallb _ (get_tracer_consults_nothing w1 c1 h1 p1 v1))
    as Hq1.
  pose proof (quiet_forallb _ (get_tracer_consults_nothing w2 c2 h2 p2 v2))
    as Hq2.
  destruct (run (get_tracer c1 h1 p1 v1) w1) as [o1 log1].
  destruct (run (get_tracer c2 h2 p2 v2) w2) as [o2 log2].
  simpl in Ht1, Ht2, Hq1, Hq2. subst o1 o2.
  destruct (after_fetch_prompts w1 variable t1 log1 seg Hq1 Hs1)
    as (prompt & Hp & Hl1 & Hg1).
  destruct (after_fetch_prompts w2 variable t2 log2 seg Hq2 Hs2)
    as (prompt' & Hp' & Hl2 & Hg2).
  assert (prompt' = prompt) as -> by congruence.
  exists prompt. split; [exact Hp|]. split; [exact Hl1|].
  split; [exact Hl2|]. intros q [H|H]; auto.
Qed.

Lemma cache_hit_returns_static_witness :
  let r := run (execute_analysis "us" "h1" "p1" "value1") us_world in
  In (ECacheLookup value1_prompt) (snd r)
  /\ analysis_cache us_world value1_prompt = Ok (Some "cached explanation")
  /\ fst r = Ok (Text "cached explanation", static)
  /\ forall q, ~ In (EGenerate q) (snd r).
Proof.
  cbv zeta.
  assert (Hin : In (ECacheLookup value1_prompt)
                  (snd (run (execute_analysis "us" "h1" "p1" "value1")
                          us_world))).
  { vm_compute. right. left. reflexivity. }
  split; [exact Hin|]. split; [reflexivity|].
  exact (cache_hit_returns_static us_world "us" "h1" "p1" "value1"
           value1_prompt "cached explanation" Hin eq_refl).
Defined.

Lemma missing_trace_not_found_witness :
  COUNTRY_PACKAGE_VERSIONS us_world !! "us" = Some "1.0"
  /\ fetchone (tracers us_world) "h2" "p1" "us" "1.0" = None
  /\ fst (run (execute_analysis "us" "h2" "p1" "value1") us_world)
     = Raise (NotFound "No household simulation tracer found").
Proof.
  split; [reflexivity|]. split; [reflexivity|].
  apply (missing_trace_not_found us_world "us" "h2" "p1" "value1" "1.0");
    reflexivity.
Defined.

Lemma prompt_rendering_deterministic_witness :
  exists prompt,
    render_prompt "value1" ["value1"; "  value1.1"] = Ok prompt
    /\ (forall q,
          In (ECacheLookup q)
            (snd (run (execute_analysis "us" "h1" "p1" "value1") us_world))
          <-> q = prompt)
    /\ (forall q,
          In (ECacheLookup q)
            (snd (run (execute_analysis "uk" "h9" "p9" "value1") uk_world))
          <-> q = prompt)
    /\ (forall q,
          In (EGenerate q)
            (snd (run (execute_analysis "us" "h1" "p1" "value1") us_world))
          \/ In (EGenerate q)
               (snd (run (execute_analysis "uk" "h9" "p9" "value1") uk_world))
          -> q = prompt).
Proof.
  apply (prompt_rendering_deterministic us_world uk_world
           "us" "h1" "p1" "1.0" "uk" "h9" "p9" "2.3" "value1"
           (trace ["value1"; "  value1.1"; "value2"])
           (trace ["other"; "value1"; "  value1.1"; "value2"; "last"])
           ["value1"; "  value1.1"]);
    reflexivity.
Defined.

(** ** Further properties of the segment extractor *)

(** While capturing, strictly deeper lines are appended. *)
Lemma for_loop_capturing_deeper (t : string) (ti : nat)
  (deeper : list string) (rest : list pyval) : forall r,
  Forall (fun l => ti < indent l) deeper ->
  for_loop t (mkScan r (Some ti) true) (map PStr deeper ++ rest)
  = for_loop t (mkScan (r ++ deeper) (Some ti) true) rest.
Proof.
  induction deeper as [|l deeper IH]; intros r Hall; simpl.
  - now rewrite app_nil_r.
  - apply Forall_cons_iff in Hall as [Hl Hall].
    unfold loop_body. simpl. rewrite andb_false_r.
    apply Nat.leb_gt in Hl. rewrite Hl.
    rewrite IH by assumption. now rewrite <- app_assoc.
Qed.

(** While capturing, a line that is not deeper ends the loop, and what
    comes after it is not looked at. *)
Lemma for_loop_capturing_stop (t n : string) (ti : nat) (r : list string)
  (rest : list pyval) :
  indent n <= ti ->
  for_loop t (mkScan r (Some ti) true) (PStr n :: rest) = Ok r.
Proof.
  intros Hn. simpl. unfold loop_body. simpl. rewrite andb_false_r.
  apply Nat.leb_le in Hn. now rewrite Hn.
Qed.

Lemma extract_subtree (t l : string) (pre deeper : list string)
  (post : list pyval) :
  forallb (fun x => negb (line_matches t x)) pre = true ->
  line_matches t l = true ->
  Forall (fun x => indent l < indent x) deeper ->
  ends_subtree (indent l) post ->
  _parse_tracer_output
    (PList (map PStr pre ++ PStr l :: map PStr deeper ++ post)) (PStr t)
  = Ok (l :: deeper).
Proof.
  intros Hpre Hl Hdeep Hpost. unfold _parse_tracer_output.
  rewrite for_loop_scan, scan_lines_no_match by auto.
  simpl. unfold loop_body at 1. simpl. rewrite Hl. simpl.
  rewrite for_loop_capturing_deeper by assumption. simpl.
  destruct post as [|n post]; [reflexivity|].
  destruct n; try contradiction. now apply for_loop_capturing_stop.
Qed.

(** A list of lines either holds no match, or splits at its first match. *)
Lemma first_match_split (t : string) (T : list string) :
  forallb (fun x => negb (line_matches t x)) T = true
  \/ exists pre l rest,
       T = pre ++ l :: rest
       /\ forallb (fun x => negb (line_matches t x)) pre = true
       /\ line_matches t l = true.
Proof.
  induction T as [|x T IH]; simpl; [now left|].
  destruct (line_matches t x) eqn:Hx; simpl.
  - right. exists [], x, T. auto.
  - destruct IH as [IH|(pre & l & rest & -> & Hpre & Hl)]; [now left|].
    right. exists (x :: pre), l, rest. simpl. rewrite Hx. auto.
Qed.

(** The lines after a match split into the strictly deeper ones and the
    rest, which is empty or starts with a line that is not deeper. *)
Lemma deeper_span (ti : nat) (rest : list string) :
  exists deeper post,
    rest = deeper ++ post
    /\ Forall (fun x => ti < indent x) deeper
    /\ match post with [] => True | n :: _ => indent n <= ti end.
Proof.
  induction rest as [|x rest (deeper & post & -> & Hd & Hp)].
  - exists [], []. auto.
  - destruct (le_lt_dec (indent x) ti) as [Hle|Hlt].
    + exists [], (x :: deeper ++ post). auto.
    + exists (x :: deeper), post. auto.
Qed.

Lemma ends_subtree_strings (ti : nat) (post : list string) :
  match post with [] => True | n :: _ => indent n <= ti end ->
  ends_subtree ti (map PStr post).
Proof. now destruct post. Qed.

(** X1: the extractor returns the subtree of the first match.  After any
    lines that do not match, a matching line followed by strictly deeper
    lines is returned with them as soon as the list ends or a line that is
    not deeper comes; whatever follows that line, strings or not, is
    never examined. *)
Theorem first_match_subtree (t l n : string) (pre deeper : list string)
  (ignored : list pyval) :
  forallb (fun x => negb (line_matches t x)) pre = true ->
  line_matches t l = true ->
  Forall (fun x => indent l < indent x) deeper ->
  indent n <= indent l ->
  _parse_tracer_output
    (PList (map PStr pre ++ PStr l :: map PStr deeper ++ PStr n :: ignored))
    (PStr t)
  = Ok (l :: deeper)
  /\ _parse_tracer_output (trace (pre ++ l :: deeper)) (PStr t)
     = Ok (l :: deeper).
Proof.
  intros Hpre Hl Hdeep Hn. split.
  - now apply extract_subtree.
  - unfold trace. rewrite map_app. simpl.
    rewrite <- (app_nil_r (map PStr deeper)).
    now apply extract_subtree.
Qed.

Lemma first_match_subtree_witness :
  _parse_tracer_output
    (PList (map PStr ["tax"] ++ PStr "  income <10>"
              :: map PStr ["    wages"; "      hours"]
              ++ PStr "  benefits" :: [PNone; PInt 3]))
    (PStr "income")
  = Ok ["  income <10>"; "    wages"; "      hours"]
  /\ _parse_tracer_output
       (trace (["tax"] ++ "  income <10>" :: ["    wages"; "      hours"]))
       (PStr "income")
     = Ok ["  income <10>"; "    wages"; "      hours"].
Proof.
  apply (first_match_subtree "income" "  income <10>" "  benefits"
           ["tax"] ["    wages"; "      hours"] [PNone; PInt 3]).
  - reflexivity.
  - reflexivity.
  - repeat constructor.
  - vm_compute. lia.
Defined.

(** X2: on a list of strings the extractor never raises, and its result
    is a contiguous run of the list: the lines before it do not match; if
    it is empty it is because no line matches; otherwise it starts with a
    matching line, all its other lines are strictly deeper for [indent],
    and the line after it, if any, is not deeper. *)
Theorem segment_is_contiguous_subtree (T : list string) (V : string) :
  exists seg pre post,
    _parse_tracer_output (trace T) (PStr V) = Ok seg
    /\ T = pre ++ seg ++ post
    /\ forallb (fun x => negb (line_matches V x)) pre = true
    /\ match seg with
       | [] => post = []
       | first :: others =>
           line_matches V first = true
           /\ Forall (fun x => indent first < indent x) others
           /\ match post with
              | [] => True
              | n :: _ => indent n <= indent first
              end
       end.
Proof.
  destruct (first_match_split V T)
    as [Hno|(pre & l & rest & -> & Hpre & Hl)].
  - exists [], T, []. rewrite app_nil_r. repeat split; auto.
    unfold _parse_tracer_output, trace.
    rewrite <- (app_nil_r (map PStr T)), for_loop_scan.
    now rewrite scan_lines_no_match.
  - destruct (deeper_span (indent l) rest) as (deeper & post & -> & Hd & Hp).
    exists (l :: deeper), pre, post. repeat split; auto.
    unfold trace. rewrite map_app. simpl. rewrite map_app.
    apply extract_subtree; auto. now apply ends_subtree_strings.
Qed.

Lemma loop_body_fail (t : string) (st : scan) (x : pyval) (e : exn) :
  scan_ok st -> loop_body t st x = Fail e -> eval_indent x = Raise e.
Proof.
  unfold loop_body, scan_ok. intros Hst.
  destruct (eval_indent x) as [[s ind]|e']; [|congruence].
  destruct (line_matches t s && negb (capturing st))%bool; [discriminate|].
  destruct (capturing st); [|discriminate].
  destruct Hst as (first & others & _ & -> & _).
  destruct (ind <=? indent first); discriminate.
Qed.

Lemma for_loop_raise (t : string) (e : exn) (items : list pyval) : forall st,
  scan_ok st -> for_loop t st items = Raise e ->
  exists pre x post st',
    items = pre ++ x :: post
    /\ scan_lines t st pre = Next st'
    /\ eval_indent x = Raise e.
Proof.
  induction items as [|x items IH]; intros st Hst; simpl; [discriminate|].
  destruct (loop_body t st x) as [st'|st'|e'] eqn:Hb; [|discriminate|].
  - intros H. apply IH in H as (pre & y & post & st'' & -> & Hs & Hy);
      [|eapply loop_body_scan_ok; eauto].
    exists (x :: pre), y, post, st''. simpl. rewrite Hb. auto.
  - intros [= ->]. exists [], x, items, st. simpl.
    repeat split. eapply loop_body_fail; eauto.
Qed.

(** X3: the extractor raises exactly when the target is a string, the
    trace is a list, and the loop reaches, without having stopped, an
    element on which [len] or [strip] fails; the error is that element's.
    The comparison with an unset [target_indent] is never reached. *)
Theorem raises_only_on_reached_non_string (tracer_output target : pyval)
  (e : exn) :
  _parse_tracer_output tracer_output target = Raise e <->
  exists t pre x post st,
    target = PStr t
    /\ tracer_output = PList (pre ++ x :: post)
    /\ scan_lines t init pre = Next st
    /\ eval_indent x = Raise e.
Proof.
  split.
  - unfold _parse_tracer_output.
    destruct target; try discriminate.
    destruct tracer_output; try discriminate.
    intros H. apply for_loop_raise in H
      as (pre & x & post & st & -> & Hs & Hx); [|reflexivity].
    exists s, pre, x, post, st. auto.
  - intros (t & pre & x & post & st & -> & -> & Hs & Hx).
    unfold _parse_tracer_output. rewrite for_loop_scan, Hs. simpl.
    unfold loop_body. now rewrite Hx.
Qed.

(** X4: extraction is idempotent: run again on the segment it returned,
    the extractor returns that segment. *)
Theorem extract_idempotent (T seg : list string) (V : string) :
  _parse_tracer_output (trace T) (PStr V) = Ok seg ->
  _parse_tracer_output (trace seg) (PStr V) = Ok seg.
Proof.
  destruct (first_match_split V T)
    as [Hno|(pre & l & rest & -> & Hpre & Hl)].
  - unfold _parse_tracer_output at 1. unfold trace at 1.
    rewrite <- (app_nil_r (map PStr T)), for_loop_scan.
    rewrite scan_lines_no_match by auto. now intros [= <-].
  - destruct (deeper_span (indent l) rest) as (deeper & post & -> & Hd & Hp).
    assert (E : _parse_tracer_output (trace (pre ++ l :: deeper ++ post))
                  (PStr V) = Ok (l :: deeper)).
    { unfold trace. rewrite map_app. simpl map. rewrite map_app.
      apply extract_subtree; auto using ends_subtree_strings. }
    rewrite E. intros [= <-]. unfold trace. simpl map.
    rewrite <- (app_nil_r (map PStr deeper)).
    now apply (extract_subtree V l [] deeper []).
Qed.

Lemma extract_idempotent_witness :
  _parse_tracer_output
    (trace ["a"; "  value1"; "    b"; "  c"; "  value1"; "    d"])
    (PStr "value1") = Ok ["  value1"; "    b"]
  /\ _parse_tracer_output (trace ["  value1"; "    b"]) (PStr "value1")
     = Ok ["  value1"; "    b"].
Proof.
  split; [reflexivity|].
  apply (extract_idempotent
           ["a"; "  value1"; "    b"; "  c"; "  value1"; "    d"]).
  reflexivity.
Defined.

(** X5: lines before the first match do not change the result, also when
    it is an error. *)
Theorem leading_non_matches_skipped (V : string) (pre : list string)
  (items : list pyval) :
  forallb (fun x => negb (line_matches V x)) pre = true ->
  _parse_tracer_output (PList (map PStr pre ++ items)) (PStr V)
  = _parse_tracer_output (PList items) (PStr V).
Proof.
  intros Hpre. unfold _parse_tracer_output.
  now rewrite for_loop_scan, scan_lines_no_match.
Qed.

Lemma leading_non_matches_skipped_witness :
  forallb (fun x => negb (line_matches "value1" x)) ["tax"; "  value10"]
  = true
  /\ _parse_tracer_output
       (PList (map PStr ["tax"; "  value10"] ++ [PStr "value1"; PNone]))
       (PStr "value1")
     = _parse_tracer_output (PList [PStr "value1"; PNone]) (PStr "value1").
Proof.
  split; [reflexivity|].
  apply leading_non_matches_skipped. reflexivity.
Defined.

Lemma space_not_word (c : ascii) : is_space c = true -> is_word c = false.
Proof.
  destruct c as [[] [] [] [] [] [] [] []]; vm_compute; congruence.
Qed.

(** X6: the empty target matches exactly the lines that are empty or
    start with a character that is not an identifier character, every
    indented line among them. *)
Theorem empty_target_matches (line : string) :
  line_matches "" line = boundary (chars line).
Proof.
  apply eq_true_iff_eq. rewrite line_matches_spec. simpl. split.
  - intros (ws & rest & E & Hws & Hb). rewrite E.
    destruct ws as [|c ws]; [exact Hb|]. simpl in *.
    apply andb_true_iff in Hws as [Hc _].
    now rewrite (space_not_word c Hc).
  - intros Hb. exists [], (chars line). auto.
Qed.

(** ** Further properties of prompt rendering *)

Lemma format_run_text (kwargs : list (string * string))
  (lit tpl : list ascii) :
  no_brace lit = true ->
  format_run kwargs (lit ++ tpl) None
  = prepend lit (format_run kwargs tpl None).
Proof.
  induction lit as [|c lit IH]; simpl.
  - intros _. now destruct (format_run kwargs tpl None).
  - intros H. apply andb_true_iff in H as [Hc Hlit].
    apply andb_true_iff in Hc as [Ho Hcl].
    apply negb_true_iff in Ho, Hcl. rewrite Ho, Hcl, (IH Hlit).
    now destruct (format_run kwargs tpl None).
Qed.

Lemma format_run_name (kwargs : list (string * string))
  (name tpl : list ascii) : forall acc,
  no_brace name = true ->
  format_run kwargs (name ++ "}"%char :: tpl) (Some acc)
  = match assoc (of_chars (acc ++ name)) kwargs with
    | Some v => prepend (chars v) (format_run kwargs tpl None)
    | None => Raise (KeyError (of_chars (acc ++ name)))
    end.
Proof.
  induction name as [|c name IH]; intros acc; simpl.
  - intros _. now rewrite app_nil_r.
  - intros H. apply andb_true_iff in H as [Hc Hname].
    apply andb_true_iff in Hc as [_ Hcl]. apply negb_true_iff in Hcl.
    rewrite Hcl, (IH _ Hname). now rewrite <- app_assoc.
Qed.

(** A replacement field is replaced by its argument, which is not scanned
    for braces. *)
Lemma format_run_field (kwargs : list (string * string))
  (c : ascii) (name tpl : list ascii) (v : string) :
  no_brace (c :: name) = true ->
  assoc (of_chars (c :: name)) kwargs = Some v ->
  format_run kwargs ("{"%char :: (c :: name) ++ "}"%char :: tpl) None
  = prepend (chars v) (format_run kwargs tpl None).
Proof.
  intros Hn Hv.
  change (format_run kwargs ("{"%char :: (c :: name) ++ "}"%char :: tpl) None)
    with (if Ascii.eqb c "{"
          then prepend ["{"%char]
                 (format_run kwargs (name ++ "}"%char :: tpl) None)
          else format_run kwargs ((c :: name) ++ "}"%char :: tpl) (Some [])).
  pose proof Hn as Hn'. simpl in Hn'.
  apply andb_true_iff in Hn' as [Hc _].
  apply andb_true_iff in Hc as [Ho _]. apply negb_true_iff in Ho.
  rewrite Ho, format_run_name by exact Hn. simpl app. now rewrite Hv.
Qed.

Lemma of_chars_app (l1 l2 : list ascii) :
  of_chars (l1 ++ l2) = of_chars l1 +:+ of_chars l2.
Proof. induction l1 as [|c l1 IH]; simpl; [reflexivity|]. now rewrite IH. Qed.

Lemma of_chars_chars (s : string) : of_chars (chars s) = s.
Proof. apply string_of_list_ascii_of_string. Qed.

(** X7: the template is four stretches of text around its three fields,
    and rendering puts the variable, as it is, in the first and third
    field and [str] of the segment in the second: braces in the variable
    or in the trace lines are not interpreted, and rendering never
    raises. *)
Theorem render_prompt_fills_fields :
  exists a b c d : string,
    prompt_template
    = a +:+ "{variable}" +:+ b +:+ "{tracer_segment}" +:+ c
        +:+ "{variable}" +:+ d
    /\ forall (variable : string) (tracer_segment : list string),
         render_prompt variable tracer_segment
         = Ok (a +:+ variable +:+ b +:+ py_str_list tracer_segment +:+ c
                 +:+ variable +:+ d).
Proof.
  exists template_before_variable, template_before_segment,
    template_after_segment, template_end.
  split; [reflexivity|].
  intros variable tracer_segment. unfold render_prompt, format.
  generalize (py_str_list tracer_segment). intros seg.
  set (kwargs := [("variable", variable); ("tracer_segment", seg)]).
  change (chars prompt_template)
    with (chars template_before_variable
            ++ "{"%char :: chars "variable" ++ "}"%char
            :: chars template_before_segment
            ++ "{"%char :: chars "tracer_segment" ++ "}"%char
            :: chars template_after_segment
            ++ "{"%char :: chars "variable" ++ "}"%char
            :: chars template_end ++ []).
  rewrite format_run_text by reflexivity.
  rewrite (format_run_field kwargs "v" (chars "ariable") _ variable)
    by reflexivity.
  rewrite format_run_text by reflexivity.
  rewrite (format_run_field kwargs "t" (chars "racer_segment") _ seg)
    by reflexivity.
  rewrite format_run_text by reflexivity.
  rewrite (format_run_field kwargs "v" (chars "ariable") _ variable)
    by reflexivity.
  rewrite format_run_text by reflexivity.
  cbn [format_run prepend]. rewrite app_nil_r.
  now rewrite !of_chars_app, !of_chars_chars.
Qed.

(** ** Further properties of the dispatcher *)

(** Every way a call can go: the stages of [execute_analysis], with the
    equation of each choice kept. *)
Ltac dispatch_cases w country_id household_id policy_id variable :=
  rewrite execute_analysis_run; unfold run;
  let ver := fresh "ver" in
  destruct (COUNTRY_PACKAGE_VERSIONS w !! country_id) as [ver|] eqn:Hver;
  [ rewrite get_tracer_run; cbv zeta;
    let row := fresh "row" in
    destruct (fetchone (tracers w) household_id policy_id country_id ver)
      as [row|] eqn:Hrow;
    [ let tracer := fresh "tracer" in
      destruct (json_loads w (tracer_output row)) as [tracer|?e] eqn:Hjson;
      [ unfold after_fetch;
        let seg := fresh "seg" in
        destruct (_parse_tracer_output tracer (PStr variable))
          as [seg|?e] eqn:Hparse;
        [ let prompt := fresh "prompt" in
          destruct (render_prompt_total variable seg) as [prompt Hrender];
          rewrite Hrender;
          destruct (analysis_cache w prompt) as [[?text|]|?e] eqn:Hcache;
          [ | destruct (generation_backend w prompt) as [?chunks|?e] eqn:Hgen
            | ]
        | ]
      | ]
    | ]
  | ]; simpl.

(** X8: an unknown country fails with the [KeyError] of the version
    table before anything is queried, printed, looked up or generated. *)
Theorem unknown_country_key_error (w : World)
  (country_id household_id policy_id variable : string) :
  COUNTRY_PACKAGE_VERSIONS w !! country_id = None ->
  run (execute_analysis country_id household_id policy_id variable) w
  = (Raise (KeyError country_id), []).
Proof. intros H. now rewrite execute_analysis_run, H. Qed.

Lemma unknown_country_key_error_witness :
  COUNTRY_PACKAGE_VERSIONS us_world !! "fr" = None
  /\ run (execute_analysis "fr" "h1" "p1" "value1") us_world
     = (Raise (KeyError "fr"), []).
Proof.
  split; [reflexivity|].
  apply (unknown_country_key_error us_world "fr" "h1" "p1" "value1").
  reflexivity.
Defined.

(** X9: the backend is called only after the cache has been asked for
    the very same prompt and has answered that it holds nothing. *)
Theorem backend_only_after_miss (w : World)
  (country_id household_id policy_id variable q : string) :
  let r := run (execute_analysis country_id household_id policy_id variable) w
  in
  In (EGenerate q) (snd r) ->
  In (ECacheLookup q) (snd r) /\ analysis_cache w q = Ok None.
Proof.
  cbv zeta. dispatch_cases w country_id household_id policy_id variable;
    intros H; log_cases H; try discriminate;
    injection H as <-; auto.
Qed.

Lemma backend_only_after_miss_witness :
  let r := run (execute_analysis "uk" "h9" "p9" "value1") uk_world in
  In (EGenerate value1_prompt) (snd r)
  /\ In (ECacheLookup value1_prompt) (snd r)
  /\ analysis_cache uk_world value1_prompt = Ok None.
Proof.
  cbv zeta.
  assert (Hin : In (EGenerate value1_prompt)
                  (snd (run (execute_analysis "uk" "h9" "p9" "value1")
                          uk_world))).
  { vm_compute. right. right. left. reflexivity. }
  split; [exact Hin|].
  exact (backend_only_after_miss uk_world "uk" "h9" "p9" "value1"
           value1_prompt Hin).
Defined.

(** X10: a call that returns has printed nothing, and returned either a
    cached text with mode static, the backend not having been called, or
    the chunks of the backend with mode streaming, the cache having
    answered that it holds nothing for the prompt. *)
Theorem success_is_static_or_streaming (w : World)
  (country_id household_id policy_id variable : string)
  (c : content) (m : mode) :
  let r := run (execute_analysis country_id household_id policy_id variable) w
  in
  fst r = Ok (c, m) ->
  (forall text, ~ In (EPrint text) (snd r))
  /\ ((exists prompt text,
         c = Text text /\ m = static
         /\ analysis_cache w prompt = Ok (Some text)
         /\ In (ECacheLookup prompt) (snd r)
         /\ forall q, ~ In (EGenerate q) (snd r))
      \/ (exists prompt chunks,
            c = Stream chunks /\ m = streaming
            /\ analysis_cache w prompt = Ok None
            /\ generation_backend w prompt = Ok chunks
            /\ In (EGenerate prompt) (snd r))).
Proof.
  cbv zeta. dispatch_cases w country_id household_id policy_id variable;
    try discriminate; intros [= <- <-];
    (split; [intros t H; log_cases H; discriminate|]).
  - left. exists prompt, text. repeat split; auto.
    intros q H. log_cases H; discriminate.
  - right. exists prompt, chunks. repeat split; auto.
Qed.

Lemma success_is_static_or_streaming_witness :
  let r := run (execute_analysis "us" "h1" "p1" "value1") us_world in
  fst r = Ok (Text "cached explanation", static)
  /\ (forall text, ~ In (EPrint text) (snd r)).
Proof.
  cbv zeta. split; [reflexivity|].
  apply (success_is_static_or_streaming us_world "us" "h1" "p1" "value1"
           (Text "cached explanation") static).
  reflexivity.
Defined.



(** X12: on a cache miss the backend is called once with the prompt that
    was looked up and its chunks are returned with mode streaming. *)
Theorem cache_miss_streams_backend (w : World)
  (country_id household_id policy_id variable prompt : string)
  (chunks : list string) :
  let r := run (execute_analysis country_id household_id policy_id variable) w
  in
  In (ECacheLookup prompt) (snd r) ->
  analysis_cache w prompt = Ok None ->
  generation_backend w prompt = Ok chunks ->
  fst r = Ok (Stream chunks, streaming)
  /\ exists before,
       snd r = before ++ [ECacheLookup prompt; EGenerate prompt]
       /\ quiet before.
Proof.
  cbv zeta. dispatch_cases w country_id household_id policy_id variable;
    intros H Hc Hg; log_cases H; try discriminate;
    injection H as <-; try congruence.
  split; [congruence|].
  exists [EQuery household_id policy_id country_id ver]. split; [reflexivity|].
  intros ev [<-|[]]. reflexivity.
Qed.

Lemma cache_miss_streams_backend_witness :
  let r := run (execute_analysis "uk" "h9" "p9" "value1") uk_world in
  In (ECacheLookup value1_prompt) (snd r)
  /\ fst r = Ok (Stream ["It "; "depends."], streaming).
Proof.
  cbv zeta.
  assert (Hin : In (ECacheLookup value1_prompt)
                  (snd (run (execute_analysis "uk" "h9" "p9" "value1")
                          uk_world))).
  { vm_compute. right. left. reflexivity. }
  split; [exact Hin|].
  apply (cache_miss_streams_backend uk_world "uk" "h9" "p9" "value1"
           value1_prompt ["It "; "depends."] Hin); reflexivity.
Defined.

(** X13: when the backend fails on a cache miss, its exception is printed
    with the service's message and raised unchanged; the backend has been
    called once and is not called again. *)
Theorem backend_failure_is_reraised (w : World)
  (country_id household_id policy_id variable prompt : string) (e : exn) :
  let r := run (execute_analysis country_id household_id policy_id variable) w
  in
  In (ECacheLookup prompt) (snd r) ->
  analysis_cache w prompt = Ok None ->
  generation_backend w prompt = Raise e ->
  fst r = Raise e
  /\ exists before,
       snd r = before
               ++ [ECacheLookup prompt; EGenerate prompt;
                   EPrint ("Error generating AI analysis within tracer analysis service: "
                           +:+ str_exn e)]
       /\ quiet before.
Proof.
  cbv zeta. dispatch_cases w country_id household_id policy_id variable;
    intros H Hc Hg; log_cases H; try discriminate;
    injection H as <-; try congruence.
  assert (e0 = e) as -> by congruence. split; [reflexivity|].
  exists [EQuery household_id policy_id country_id ver]. split; [reflexivity|].
  intros ev [<-|[]]. reflexivity.
Qed.

Lemma backend_failure_is_reraised_witness :
  let w := demo_world (Ok (trace ["value1"; "  value1.1"; "value2"]))
             (Ok None) (Raise (ExternalError "overloaded")) in
  let r := run (execute_analysis "us" "h1" "p1" "value1") w in
  In (ECacheLookup value1_prompt) (snd r)
  /\ fst r = Raise (ExternalError "overloaded").
Proof.
  cbv zeta.
  assert (Hin : In (ECacheLookup value1_prompt)
                  (snd (run (execute_analysis "us" "h1" "p1" "value1")
                          (demo_world
                             (Ok (trace ["value1"; "  value1.1"; "value2"]))
                             (Ok None)
                             (Raise (ExternalError "overloaded")))))).
  { vm_compute. right. left. reflexivity. }
  split; [exact Hin|].
  apply (backend_failure_is_reraised
           (demo_world (Ok (trace ["value1"; "  value1.1"; "value2"]))
              (Ok None) (Raise (ExternalError "overloaded")))
           "us" "h1" "p1" "value1" value1_prompt
           (ExternalError "overloaded") Hin); reflexivity.
Defined.

(** X14: when the extractor raises on the stored trace, the exception is
    printed with the parsing message and raised unchanged, and neither the
    cache nor the backend is called. *)
Theorem parse_failure_is_reraised (w : World)
  (country_id household_id policy_id variable ver : string)
  (row : tracer_row) (tracer : pyval) (e : exn) :
  COUNTRY_PACKAGE_VERSIONS w !! country_id = Some ver ->
  fetchone (tracers w) household_id policy_id country_id ver = Some row ->
  json_loads w (tracer_output row) = Ok tracer ->
  _parse_tracer_output tracer (PStr variable) = Raise e ->
  run (execute_analysis country_id household_id policy_id variable) w
  = (Raise e,
     [EQuery household_id policy_id country_id ver;
      EPrint ("Error parsing tracer output: " +:+ str_exn e)]).
Proof.
  intros Hv Hr Hj Hp. rewrite execute_analysis_run, Hv. unfold run.
  rewrite get_tracer_run, Hr, Hj. cbv zeta. unfold after_fetch.
  now rewrite Hp.
Qed.

Lemma parse_failure_is_reraised_witness :
  let w := demo_world (Ok (PList [PStr "tax"; PInt 7])) (Ok None) (Ok []) in
  _parse_tracer_output (PList [PStr "tax"; PInt 7]) (PStr "value1")
  = Raise (TypeError "object of type 'int' has no len()")
  /\ run (execute_analysis "us" "h1" "p1" "value1") w
     = (Raise (TypeError "object of type 'int' has no len()"),
        [EQuery "h1" "p1" "us" "1.0";
         EPrint "Error parsing tracer output: object of type 'int' has no len()"]).
Proof.
  cbv zeta. split; [reflexivity|].
  apply (parse_failure_is_reraised
           (demo_world (Ok (PList [PStr "tax"; PInt 7])) (Ok None) (Ok []))
           "us" "h1" "p1" "value1" "1.0"
           (mkRow "h1" "p1" "us" "1.0" "stored trace")
           (PList [PStr "tax"; PInt 7])); reflexivity.
Defined.

(** X15: when the stored text cannot be decoded, the decoder's exception
    is printed with the message of [get_tracer] and raised unchanged, and
    neither the cache nor the backend is called. *)
Theorem decode_failure_is_reraised (w : World)
  (country_id household_id policy_id variable ver : string)
  (row : tracer_row) (e : exn) :
  COUNTRY_PACKAGE_VERSIONS w !! country_id = Some ver ->
  fetchone (tracers w) household_id policy_id country_id ver = Some row ->
  json_loads w (tracer_output row) = Raise e ->
  run (execute_analysis country_id household_id policy_id variable) w
  = (Raise e,
     [EQuery household_id policy_id country_id ver;
      EPrint ("Error getting existing tracer analysis: " +:+ str_exn e)]).
Proof.
  intros Hv Hr Hj. rewrite execute_analysis_run, Hv. unfold run.
  now rewrite get_tracer_run, Hr, Hj.
Qed.

Lemma decode_failure_is_reraised_witness :
  let w := demo_world (Raise (ValueError "Expecting value")) (Ok None)
             (Ok []) in
  json_loads w "stored trace" = Raise (ValueError "Expecting value")
  /\ run (execute_analysis "us" "h1" "p1" "value1") w
     = (Raise (ValueError "Expecting value"),
        [EQuery "h1" "p1" "us" "1.0";
         EPrint "Error getting existing tracer analysis: Expecting value"]).
Proof.
  cbv zeta. split; [reflexivity|].
  apply (decode_failure_is_reraised
           (demo_world (Raise (ValueError "Expecting value")) (Ok None)
              (Ok []))
           "us" "h1" "p1" "value1" "1.0"
           (mkRow "h1" "p1" "us" "1.0" "stored trace")); reflexivity.
Defined.

(** X16: a stored trace that decodes to something other than a list is
    not an error: the segment is empty, and the prompt rendered with the
    empty segment is what the cache is asked for. *)
Theorem non_list_trace_gives_empty_prompt (w : World)
  (country_id household_id policy_id variable ver : string)
  (row : tracer_row) (tracer : pyval) :
  COUNTRY_PACKAGE_VERSIONS w !! country_id = Some ver ->
  fetchone (tracers w) household_id policy_id country_id ver = Some row ->
  json_loads w (tracer_output row) = Ok tracer ->
  is_list tracer = false ->
  exists prompt rest,
    render_prompt variable [] = Ok prompt
    /\ snd (run (execute_analysis country_id household_id policy_id variable)
              w)
       = EQuery household_id policy_id country_id ver
           :: ECacheLookup prompt :: rest.
Proof.
  intros Hv Hr Hj Hl. rewrite execute_analysis_run, Hv. unfold run.
  rewrite get_tracer_run, Hr, Hj. cbv zeta. unfold after_fetch.
  assert (Hp : _parse_tracer_output tracer (PStr variable) = Ok []).
  { destruct tracer; try reflexivity. discriminate. }
  rewrite Hp. destruct (render_prompt_total variable []) as [prompt Hrender].
  rewrite Hrender. exists prompt.
  destruct (analysis_cache w prompt) as [[text|]|e];
    [| destruct (generation_backend w prompt) |]; simpl; eauto.
Qed.

Lemma non_list_trace_gives_empty_prompt_witness :
  let w := demo_world (Ok (PDict [("value1", PInt 1)])) (Ok None) (Ok []) in
  is_list (PDict [("value1", PInt 1)]) = false
  /\ exists prompt rest,
       render_prompt "value1" [] = Ok prompt
       /\ snd (run (execute_analysis "us" "h1" "p1" "value1") w)
          = EQuery "h1" "p1" "us" "1.0" :: ECacheLookup prompt :: rest.
Proof.
  cbv zeta. split; [reflexivity|].
  apply (non_list_trace_gives_empty_prompt
           (demo_world (Ok (PDict [("value1", PInt 1)])) (Ok None) (Ok []))
           "us" "h1" "p1" "value1" "1.0"
           (mkRow "h1" "p1" "us" "1.0" "stored trace")
           (PDict [("value1", PInt 1)])); reflexivity.
Defined.

Lemma extract_total_on_strings (T : list string) (V : string) :
  exists seg, _parse_tracer_output (trace T) (PStr V) = Ok seg.
Proof.
  destruct (first_match_split V T)
    as [Hno|(pre & l & rest & -> & Hpre & Hl)].
  - exists []. unfold _parse_tracer_output, trace.
    rewrite <- (app_nil_r (map PStr T)), for_loop_scan.
    now rewrite scan_lines_no_match.
  - destruct (deeper_span (indent l) rest) as (deeper & post & -> & Hd & Hp).
    exists (l :: deeper). unfold trace. rewrite map_app. simpl map.
    rewrite map_app. apply extract_subtree; auto using ends_subtree_strings.
Qed.

(** X17: when the record exists and decodes to a list of strings, the call
    cannot fail before the cache: it asks the cache for the prompt
    rendered from the variable and the segment extracted from that list,
    whether or not the variable occurs in it. *)
Theorem stored_lines_reach_cache (w : World)
  (country_id household_id policy_id variable ver : string)
  (row : tracer_row) (T : list string) :
  COUNTRY_PACKAGE_VERSIONS w !! country_id = Some ver ->
  fetchone (tracers w) household_id policy_id country_id ver = Some row ->
  json_loads w (tracer_output row) = Ok (trace T) ->
  exists seg prompt rest,
    _parse_tracer_output (trace T) (PStr variable) = Ok seg
    /\ render_prompt variable seg = Ok prompt
    /\ snd (run (execute_analysis country_id household_id policy_id variable)
              w)
       = EQuery household_id policy_id country_id ver
           :: ECacheLookup prompt :: rest.
Proof.
  intros Hv Hr Hj. rewrite execute_analysis_run, Hv. unfold run.
  rewrite get_tracer_run, Hr, Hj. cbv zeta. unfold after_fetch.
  destruct (extract_total_on_strings T variable) as [seg Hseg].
  rewrite Hseg. destruct (render_prompt_total variable seg) as [prompt Hp].
  rewrite Hp. exists seg, prompt.
  destruct (analysis_cache w prompt) as [[text|]|e];
    [| destruct (generation_backend w prompt) |]; simpl; eauto.
Qed.

Lemma stored_lines_reach_cache_witness :
  exists seg prompt rest,
    _parse_tracer_output (trace ["value1"; "  value1.1"; "value2"])
      (PStr "absent") = Ok seg
    /\ render_prompt "absent" seg = Ok prompt
    /\ snd (run (execute_analysis "us" "h1" "p1" "absent") us_world)
       = EQuery "h1" "p1" "us" "1.0" :: ECacheLookup prompt :: rest.
Proof.
  apply (stored_lines_reach_cache us_world "us" "h1" "p1" "absent" "1.0"
           (mkRow "h1" "p1" "us" "1.0" "stored trace")
           ["value1"; "  value1.1"; "value2"]); reflexivity.
Defined.

(** X18: once the version is resolved the store is queried first, once,
    with the call's household, policy and country and the version of the
    table, whatever happens afterwards. *)
Theorem store_queried_once_first (w : World)
  (country_id household_id policy_id variable ver : string) :
  COUNTRY_PACKAGE_VERSIONS w !! country_id = Some ver ->
  exists rest,
    snd (run (execute_analysis country_id household_id policy_id variable) w)
    = EQuery household_id policy_id country_id ver :: rest
    /\ forall h p c v, ~ In (EQuery h p c v) rest.
Proof.
  intros Hv.
  dispatch_cases w country_id household_id policy_id variable;
    try discriminate; injection Hv as <-;
    (eexists; split; [reflexivity|]);
    intros h p c v H; simpl in H; intuition discriminate.
Qed.

Lemma store_queried_once_first_witness :
  COUNTRY_PACKAGE_VERSIONS uk_world !! "uk" = Some "2.3"
  /\ exists rest,
       snd (run (execute_analysis "uk" "h9" "p9" "value1") uk_world)
       = EQuery "h9" "p9" "uk" "2.3" :: rest
       /\ forall h p c v, ~ In (EQuery h p c v) rest.
Proof.
  split; [reflexivity|].
  apply (store_queried_once_first uk_world "uk" "h9" "p9" "value1" "2.3").
  reflexivity.
Defined.

(** X19: the trace [get_tracer] returns is the decoding of a row of the
    table whose household, policy, country and version are the ones asked
    for; on success the query is its only effect and nothing is printed. *)
Theorem get_tracer_returns_matching_row (w : World)
  (country_id household_id policy_id api_version : string) (tracer : pyval) :
  fst (run (get_tracer country_id household_id policy_id api_version) w)
  = Ok tracer ->
  snd (run (get_tracer country_id household_id policy_id api_version) w)
  = [EQuery household_id policy_id country_id api_version]
  /\ exists row,
       In row (tracers w)
       /\ row_household_id row = household_id
       /\ row_policy_id row = policy_id
       /\ row_country_id row = country_id
       /\ row_api_version row = api_version
       /\ json_loads w (tracer_output row) = Ok tracer.
Proof.
  unfold run. rewrite get_tracer_run. cbv zeta.
  destruct (fetchone _ _ _ _ _) as [row|] eqn:Hrow; [|discriminate].
  destruct (json_loads w (tracer_output row)) as [t|e] eqn:Hj;
    [|discriminate].
  simpl. intros [= ->]. split; [reflexivity|].
  apply find_some in Hrow as [Hin Hkey].
  repeat (apply andb_true_iff in Hkey as [Hkey ?]).
  exists row. repeat split; auto; now apply String.eqb_eq.
Qed.

Lemma get_tracer_returns_matching_row_witness :
  fst (run (get_tracer "us" "h1" "p1" "1.0") us_world)
  = Ok (trace ["value1"; "  value1.1"; "value2"])
  /\ snd (run (get_tracer "us" "h1" "p1" "1.0") us_world)
     = [EQuery "h1" "p1" "us" "1.0"].
Proof.
  split; [reflexivity|].
  apply (get_tracer_returns_matching_row us_world "us" "h1" "p1" "1.0"
           (trace ["value1"; "  value1.1"; "value2"])).
  reflexivity.
Defined.

(** X20: an exception of the cache lookup, which no handler surrounds, is
    raised unchanged without being printed, and the backend is not
    called. *)
Theorem cache_failure_is_not_caught (w : World)
  (country_id household_id policy_id variable prompt : string) (e : exn) :
  let r := run (execute_analysis country_id household_id policy_id variable) w
  in
  In (ECacheLookup prompt) (snd r) ->
  analysis_cache w prompt = Raise e ->
  fst r = Raise e
  /\ (forall text, ~ In (EPrint text) (snd r))
  /\ (forall q, ~ In (EGenerate q) (snd r)).
Proof.
  cbv zeta. dispatch_cases w country_id household_id policy_id variable;
    intros H Hc; log_cases H; try discriminate;
    injection H as <-; try congruence.
  assert (e0 = e) as -> by congruence.
  repeat split; intros x H; log_cases H; discriminate.
Qed.

Lemma cache_failure_is_not_caught_witness :
  let w := demo_world (Ok (trace ["value1"; "  value1.1"; "value2"]))
             (Raise (ExternalError "database is locked")) (Ok []) in
  let r := run (execute_analysis "us" "h1" "p1" "value1") w in
  In (ECacheLookup value1_prompt) (snd r)
  /\ fst r = Raise (ExternalError "database is locked").
Proof.
  cbv zeta.
  assert (Hin : In (ECacheLookup value1_prompt)
                  (snd (run (execute_analysis "us" "h1" "p1" "value1")
                          (demo_world
                             (Ok (trace ["value1"; "  value1.1"; "value2"]))
                             (Raise (ExternalError "database is locked"))
                             (Ok []))))).
  { vm_compute. right. left. reflexivity. }
  split; [exact Hin|].
  apply (cache_failure_is_not_caught
           (demo_world (Ok (trace ["value1"; "  value1.1"; "value2"]))
              (Raise (ExternalError "database is locked")) (Ok []))
           "us" "h1" "p1" "value1" value1_prompt
           (ExternalError "database is locked") Hin); reflexivity.
Defined.

(** ** The depth the code measures *)

Lemma lstrip_length (l : list ascii) : length (lstrip l) <= length l.
Proof.
  induction l as [|c l IH]; simpl; [lia|].
  destruct (is_space c); simpl; lia.
Qed.

Lemma lstrip_all_spaces (ws : list ascii) :
  forallb is_space ws = true -> lstrip ws = [].
Proof.
  intros H. rewrite <- (app_nil_r ws). now rewrite lstrip_spaces_app.
Qed.

(** Text without leading whitespace keeps its head under [lstrip],
    whatever is appended. *)
Lemma lstrip_fixed_app (body tail : list ascii) :
  body <> [] -> lstrip body = body -> lstrip (body ++ tail) = body ++ tail.
Proof.
  destruct body as [|c b]; [congruence|]. intros _. simpl.
  destruct (is_space c); [|reflexivity].
  intros H. pose proof (lstrip_length b) as Hlen.
  rewrite H in Hlen. simpl in Hlen. lia.
Qed.

Lemma forallb_rev (p : ascii -> bool) (l : list ascii) :
  forallb p l = true -> forallb p (rev l) = true.
Proof.
  rewrite !forallb_forall. intros H x Hx. apply H. now apply in_rev.
Qed.

(** X21: the depth the code gives a line, [len(line) - len(line.strip())],
    is the number of its leading whitespace characters plus the number of
    its trailing ones; for a line of whitespace only it is the length of
    the line. *)
Theorem indent_counts_both_ends (line : string)
  (ws1 body ws2 : list ascii) :
  chars line = ws1 ++ body ++ ws2 ->
  forallb is_space ws1 = true ->
  forallb is_space ws2 = true ->
  lstrip body = body ->
  rstrip body = body ->
  indent line = length ws1 + length ws2
  /\ (body <> [] -> leading_depth line = length ws1).
Proof.
  intros E H1 H2 Hl Hr. unfold indent, leading_depth, strip. rewrite E.
  rewrite lstrip_spaces_app by exact H1.
  destruct body as [|c b].
  - simpl. rewrite (lstrip_all_spaces ws2 H2).
    unfold rstrip. simpl. rewrite !length_app. simpl.
    split; [lia|congruence].
  - rewrite (lstrip_fixed_app (c :: b) ws2) by (congruence || exact Hl).
    assert (Hs : rstrip ((c :: b) ++ ws2) = c :: b).
    { unfold rstrip in *. rewrite rev_app_distr.
      rewrite lstrip_spaces_app by now apply forallb_rev. exact Hr. }
    rewrite Hs, !length_app. split; [lia|]. intros _. lia.
Qed.

Lemma indent_counts_both_ends_witness :
  chars "  x = 1   " = chars "  " ++ chars "x = 1" ++ chars "   "
  /\ indent "  x = 1   " = 5
  /\ leading_depth "  x = 1   " = 2.
Proof.
  split; [reflexivity|].
  destruct (indent_counts_both_ends "  x = 1   "
              (chars "  ") (chars "x = 1") (chars "   ")
              eq_refl eq_refl eq_refl eq_refl eq_refl) as [Hi Hd].
  split; [exact Hi|]. apply Hd. discriminate.
Defined.
